(** * moabb datasets: BCI competition III dataset IVa and Ma2020

    A shallow embedding of [moabb/datasets/BCIComp.py] and
    [moabb/datasets/Ma2020.py]: the adaptive chunked download, the cache
    checks around it, and the per-subject assembly of recordings.

    Conventions.
    - Python integers are [Z]; lists and one-dimensional arrays are [list];
      dictionaries are [gmap string _].
    - Times and sampling rates are Python floats in the source; they are
      idealised here as rationals ([Q]), signal samples and labels as [Z].
    - Code that raises returns [Raise e] with the Python exception class [e].
    - Stateful code runs in the monad [io A := world -> world * result A];
      the world holds the file system, the log of I/O operations, the clock
      and the behaviour of the network and of the disk. *)

From Stdlib Require Import ZArith QArith List String Ascii Lia DecimalString.
From Stdlib.Strings Require Import Byte.
From stdpp Require Import base option list gmap strings.

Local Open Scope string_scope.
Local Open Scope Z_scope.

(** ** Python values and exceptions *)

Module Py.

Inductive exn : Type :=
| ValueError
| IndexError
| KeyError
| OSError
| FileNotFoundError
| BadZipFile
| RequestException
| ZeroDivisionError.

Inductive result (A : Type) : Type :=
| Ok (a : A)
| Raise (e : exn).
Arguments Ok {A} a.
Arguments Raise {A} e.

Definition rbind {A B} (r : result A) (k : A -> result B) : result B :=
  match r with
  | Ok a => k a
  | Raise e => Raise e
  end.

Definition is_ok {A} (r : result A) : bool :=
  match r with Ok _ => true | Raise _ => false end.

(** [seq[i]]: an index in [0, n) is used as it is, an index in [-n, 0)
    counts from the end, anything else raises IndexError. *)
Definition norm_index (n i : Z) : option Z :=
  if (0 <=? i) && (i <? n) then Some i
  else if (- n <=? i) && (i <? 0) then Some (i + n)
  else None.

Definition getitem {A} (l : list A) (i : Z) : result A :=
  match norm_index (Z.of_nat (length l)) i with
  | Some j =>
      match l !! Z.to_nat j with
      | Some x => Ok x
      | None => Raise IndexError
      end
  | None => Raise IndexError
  end.

(** A slice bound, as [slice.indices] computes it for step 1: negative
    bounds count from the end, and every bound is clamped to [0, n]. *)
Definition slice_bound (n i : Z) : Z :=
  if i <? 0 then Z.max (i + n) 0 else Z.min i n.

Definition slice_start (n : Z) (start : option Z) : Z :=
  match start with Some i => slice_bound n i | None => 0 end.

Definition slice_stop (n : Z) (stop : option Z) : Z :=
  match stop with Some i => slice_bound n i | None => n end.

(** [l[start:stop]] *)
Definition slice {A} (start stop : option Z) (l : list A) : list A :=
  let n := Z.of_nat (length l) in
  let a := slice_start n start in
  let b := slice_stop n stop in
  take (Z.to_nat (b - a)) (drop (Z.to_nat a) l).

(** [str(n)] and ['{}'.format(n)] for an integer. *)
Definition str_of_Z (z : Z) : string :=
  NilZero.string_of_int (Z.to_int z).

(** ['{:0wd}'.format(n)]: the sign, then zeros up to width [w]. *)
Definition zfill (w : nat) (z : Z) : string :=
  let digits := NilZero.string_of_int (Z.to_int (Z.abs z)) in
  let sign := if z <? 0 then "-" else "" in
  let pad := (w - String.length sign - String.length digits)%nat in
  sign ++ string_of_list_ascii (repeat "0"%char pad) ++ digits.

End Py.
Export Py.

Notation "x <-r e ;; k" := (rbind e (fun x => k))
  (at level 100, e at next level, right associativity).

(** ** Two-dimensional numpy arrays *)

Module Np.

(** An array of shape [(nrows, ncols)], stored row by row. The shape is
    kept apart from the cells: an array with no row still has a number
    of columns. *)
Record ndarray : Type := mk_ndarray {
  nrows : nat;
  ncols : nat;
  rows : list (list Z)
}.

Definition wf (a : ndarray) : Prop :=
  length (rows a) = nrows a /\ Forall (fun r => length r = ncols a) (rows a).

(** [a[i, j]] for indices in range *)
Definition cell (a : ndarray) (i j : nat) : option Z :=
  r ← rows a !! i; r !! j.


(** [np.zeros((r, c))] *)
Definition zeros (r c : nat) : ndarray :=
  mk_ndarray r c (replicate r (replicate c 0)).

(** [a.T] *)
Definition transpose (a : ndarray) : ndarray :=
  mk_ndarray (ncols a) (nrows a)
    (map (fun j => map (fun r => nth j r 0) (rows a)) (seq 0 (ncols a))).

(** [np.min(v)]: the minimum of a flattened array; an empty array has
    none and raises ValueError. *)
Definition min (v : list Z) : result Z :=
  match v with
  | [] => Raise ValueError
  | x :: xs => Ok (fold_left Z.min xs x)
  end.

(** [np.concatenate([a, b], axis=0)] *)
Definition concatenate0 (a b : ndarray) : result ndarray :=
  if decide (ncols a = ncols b)
  then Ok (mk_ndarray (nrows a + nrows b) (ncols a) (rows a ++ rows b)%list)
  else Raise ValueError.

(** [np.concatenate([a, b], axis=1)] *)
Definition concatenate1 (a b : ndarray) : result ndarray :=
  if decide (nrows a = nrows b)
  then Ok (mk_ndarray (nrows a) (ncols a + ncols b)
             (zip_with app (rows a) (rows b)))
  else Raise ValueError.

(** [a[:, start:stop]] *)
Definition cols_slice (start stop : option Z) (a : ndarray) : ndarray :=
  let n := Z.of_nat (ncols a) in
  mk_ndarray (nrows a)
    (Z.to_nat (slice_stop n stop - slice_start n start))
    (map (slice start stop) (rows a)).

(** The values of a [(1, m)] array assigned to [k] selected columns:
    broadcasting needs [m = k] or [m = 1]. *)
Definition broadcast_to (k : nat) (vals : list Z) : result (list Z) :=
  if decide (length vals = k) then Ok vals
  else match vals with
       | [v] => Ok (replicate k v)
       | _ => Raise ValueError
       end.

(** Every index of an index array must address a column: [-n <= i < n]. *)
Fixpoint check_indices (n : nat) (idx : list Z) : result (list nat) :=
  match idx with
  | [] => Ok []
  | i :: idx' =>
      match norm_index (Z.of_nat n) i with
      | Some j => js <-r check_indices n idx' ;; Ok (Z.to_nat j :: js)
      | None => Raise IndexError
      end
  end.

(** The writes of an indexed assignment happen in index order, so the
    last value written to a repeated index stays. *)
Definition scatter (row : list Z) (writes : list (nat * Z)) : list Z :=
  fold_left (fun r w => <[w.1 := w.2]> r) writes row.

(** [a[:, idx] = vals] for an index array [idx] of shape [(1, k)] and
    values of shape [(1, m)]. Shapes and indices are checked before
    anything is written. *)
Definition setitem_cols (a : ndarray) (idx vals : list Z) : result ndarray :=
  vs <-r broadcast_to (length idx) vals ;;
  js <-r check_indices (ncols a) idx ;;
  Ok (mk_ndarray (nrows a) (ncols a)
        (map (fun r => scatter r (zip js vs)) (rows a))).

End Np.

(** ** MNE signal containers *)

Module Mne.

Record Info : Type := mk_Info {
  ch_names : list string;
  ch_types : list string;
  sfreq : Q
}.

(** [create_info(ch_names, ch_types, sfreq)] refuses a sampling rate
    that is not positive, and channel names and channel types of
    different lengths. *)
Definition create_info (names types : list string) (sf : Q) : result Info :=
  if Qle_bool sf 0 then Raise ValueError
  else if decide (length names = length types)
  then Ok (mk_Info names types sf)
  else Raise ValueError.

Record RawArray : Type := mk_RawArray {
  raw_data : Np.ndarray;
  raw_info : Info
}.

(** [RawArray(data, info)] refuses data whose number of rows is not the
    number of channels of [info]. *)
Definition new_RawArray (data : Np.ndarray) (info : Info) : result RawArray :=
  if decide (Np.nrows data = length (ch_names info))
  then Ok (mk_RawArray data info)
  else Raise ValueError.

(** Samples of a recording, and events on its last (stim) channel. *)
Definition n_times (r : RawArray) : nat := Np.ncols (raw_data r).



Record annotation : Type := mk_annotation {
  onset : Q;
  duration : Q;
  description : string
}.

(** What [read_raw_cnt] gives: the sampling rate, the channels with
    their samples, and the annotations stored in the file. *)
Record Raw : Type := mk_Raw {
  info_sfreq : Q;
  channels : list (string * list Z);
  annotations : list annotation
}.

(** [len(raw.times)]: the channels of a recording have the same number
    of samples. *)
Definition raw_n_times (raw : Raw) : nat :=
  match channels raw with
  | c :: _ => length c.2
  | [] => O
  end.

(** [Annotations.crop(tmin, tmax)] for annotations without [orig_time].
    Nothing is done when there is no annotation; a [tmax] before [tmin]
    is refused; an annotation that begins after [tmax] or ends before
    [tmin] is dropped, and one that reaches over a bound is clipped to
    it. *)
Definition crop (tmin tmax : Q) (anns : list annotation)
    : result (list annotation) :=
  match anns with
  | [] => Ok []
  | _ :: _ =>
      if negb (Qle_bool tmin tmax) then Raise ValueError
      else
        Ok (omap (fun a =>
              let absolute_onset := onset a in
              let absolute_offset := (onset a + duration a)%Q in
              if negb (Qle_bool absolute_onset tmax)
                 || negb (Qle_bool tmin absolute_offset)
              then None
              else
                let clip_left := negb (Qle_bool tmin absolute_onset) in
                let clip_right := negb (Qle_bool absolute_offset tmax) in
                let onset' := if clip_left then tmin else absolute_onset in
                let offset' := if clip_right then tmax else absolute_offset in
                Some (mk_annotation onset'
                        (if clip_left || clip_right then (offset' - onset')%Q
                         else duration a)
                        (description a)))
              anns)
  end.

(** [raw.set_annotations(annotations)] for annotations without
    [orig_time], on a recording whose first sample is sample 0: the
    annotations are cropped to the span of the recording,
    [0, raw.times[-1] + 1 / sfreq], and replace those it had. *)
Definition set_annotations (raw : Raw) (anns : list annotation) : result Raw :=
  let sfreq := info_sfreq raw in
  if Qeq_bool sfreq 0 then Raise ZeroDivisionError
  else
    match raw_n_times raw with
    | O => Raise IndexError
    | S last =>
        let delta := (1 / sfreq)%Q in
        let tmax := (inject_Z (Z.of_nat last) / sfreq + delta)%Q in
        anns <-r crop 0 tmax anns ;;
        Ok (mk_Raw sfreq (channels raw) anns)
    end.

End Mne.

(** ** Matrix files *)

(** What [loadmat] returns: a dictionary of named fields. A field that the
    file does not have raises KeyError when it is read.
    - [cnt]: the signal, of shape (samples, channels);
    - [nfo]: the sampling rate [nfo.fs] and the channel names [nfo.clab];
    - [mrk]: the cue positions [mrk.pos], of shape (1, cues);
    - [test_idx]: the indices of the unlabeled trials;
    - [true_y]: the label vector, of shape (1, labels). *)
Record matfile : Type := mk_matfile {
  mat_cnt : option Np.ndarray;
  mat_nfo : option (Q * list string);
  mat_mrk : option (list Z);
  mat_test_idx : option (list Z);
  mat_true_y : option (list Z)
}.

Definition field {A} (f : option A) : result A :=
  match f with Some x => Ok x | None => Raise KeyError end.

(** ** The world: file system, network, clock *)

Module World.

(** One step of a streamed response body: the iterator yields a chunk,
    or raises because the connection broke. *)
Inductive arrival : Type :=
| Chunk (data : list byte)
| Broken.

(** A streamed HTTP response: the Content-Length header when there is
    one, and the chunks that [iter_content(chunk_size)] yields. *)
Record response : Type := mk_response {
  content_length : option string;
  iter_content : Z -> list arrival
}.

Record request : Type := mk_request {
  url : string;
  auth : option (string * string);
  timeout : Z;
  verify : bool
}.

Inductive http_result : Type :=
| Unreachable
| Answer (r : response).

Inductive io_event : Type :=
| IoStat (path : string)
| IoGet (req : request)
| IoOpen (path : string)
| IoWrite (path : string) (n : nat)
| IoMove (src dst : string)
| IoExtract (archive dir : string)
| IoRemove (path : string)
| IoRead (path : string)
| IoConfig (key : string)
| IoConsole (n : Z).

(** The world.
    - [files], [dirs]: the regular files with their contents, and the
      directories;
    - [io_log]: the operations done so far, oldest first;
    - [ticks], [clock]: how often [time.time()] was called, and what its
      k-th call returns;
    - [net]: what the server answers to a request;
    - [disk_fault]: whether a write fails, given the number of operations
      done before it;
    - [open_error]: the error, if any, that opening a path for writing
      raises (its directory is missing or cannot be written). *)
Record world : Type := mk_world {
  files : gmap string (list byte);
  dirs : gset string;
  io_log : list io_event;
  ticks : nat;
  clock : nat -> Q;
  net : request -> http_result;
  disk_fault : nat -> bool;
  open_error : string -> option exn
}.

Definition set_files (f : gmap string (list byte)) (w : world) : world :=
  mk_world f (dirs w) (io_log w) (ticks w) (clock w) (net w) (disk_fault w)
    (open_error w).

Definition set_clock (c : nat -> Q) (w : world) : world :=
  mk_world (files w) (dirs w) (io_log w) (ticks w) c (net w) (disk_fault w)
    (open_error w).

Definition log (e : io_event) (w : world) : world :=
  mk_world (files w) (dirs w) (io_log w ++ [e])%list (ticks w) (clock w)
    (net w) (disk_fault w) (open_error w).

Definition tick (w : world) : world :=
  mk_world (files w) (dirs w) (io_log w) (S (ticks w)) (clock w) (net w)
    (disk_fault w) (open_error w).

(** Network transfers started so far. *)
Definition is_get (e : io_event) : bool :=
  match e with IoGet _ => true | _ => false end.

Definition transfers (w : world) : nat :=
  length (filter (fun e => is_get e = true) (io_log w)).

(** *** The monad of stateful, fallible code *)

Definition io (A : Type) : Type := world -> world * result A.

Definition ret {A} (a : A) : io A := fun w => (w, Ok a).

Definition raise {A} (e : exn) : io A := fun w => (w, Raise e).

Definition bind {A B} (m : io A) (k : A -> io B) : io B :=
  fun w =>
    match m w with
    | (w', Ok a) => k a w'
    | (w', Raise e) => (w', Raise e)
    end.

Definition lift {A} (r : result A) : io A := fun w => (w, r).

(** *** Primitive operations *)

(** [os.path.isfile] *)
Definition isfile (p : string) : io bool :=
  fun w => (log (IoStat p) w, Ok (bool_decide (is_Some (files w !! p)))).

(** [os.path.isdir] *)
Definition isdir (p : string) : io bool :=
  fun w => (log (IoStat p) w, Ok (bool_decide (p ∈ dirs w))).

(** [requests.get(url, ..., stream=True)] *)
Definition requests_get (req : request) : io response :=
  fun w =>
    match net w req with
    | Answer r => (log (IoGet req) w, Ok r)
    | Unreachable => (log (IoGet req) w, Raise RequestException)
    end.

(** [open(p, mode)] for writing. Where the path cannot be opened the
    call raises and no file is created or changed. Otherwise the file is
    created if it is missing; mode 'wb' empties it, mode 'ab' keeps what
    it holds. *)
Definition open_for_writing (p mode : string) : io unit :=
  fun w =>
    match open_error w p with
    | Some e => (log (IoOpen p) w, Raise e)
    | None =>
        let kept := if String.eqb mode "ab" then default [] (files w !! p) else [] in
        (log (IoOpen p) (set_files (<[p := kept]> (files w)) w), Ok tt)
    end.

(** [f.write(data)]: the bytes are appended, unless the disk fails at
    this operation. *)
Definition write (p : string) (data : list byte) : io unit :=
  fun w =>
    if disk_fault w (length (io_log w))
    then (log (IoWrite p 0) w, Raise OSError)
    else (log (IoWrite p (length data))
            (set_files (alter (fun old => old ++ data)%list p (files w)) w),
          Ok tt).

(** [shutil.move(src, dst)] between two file paths. *)
Definition move (src dst : string) : io unit :=
  fun w =>
    match files w !! src with
    | Some c =>
        (log (IoMove src dst) (set_files (<[dst := c]> (delete src (files w))) w),
         Ok tt)
    | None => (log (IoMove src dst) w, Raise FileNotFoundError)
    end.

(** [os.remove(p)] *)
Definition remove (p : string) : io unit :=
  fun w =>
    match files w !! p with
    | Some _ => (log (IoRemove p) (set_files (delete p (files w)) w), Ok tt)
    | None => (log (IoRemove p) w, Raise FileNotFoundError)
    end.

(** [time.time()] *)
Definition time_time : io Q :=
  fun w => (tick w, Ok (clock w (ticks w))).

(** Console output of the progress bar. *)
Definition console (n : Z) : io unit :=
  fun w => (log (IoConsole n) w, Ok tt).

(** *** Relations between worlds, for the statements below *)

(** The parts of the world that a download never changes. *)
Definition same_env (w w' : world) : Prop :=
  clock w' = clock w /\ net w' = net w /\ disk_fault w' = disk_fault w /\
  dirs w' = dirs w /\ open_error w' = open_error w.

(** Two worlds with the same disk: the same files, the same operations
    done so far, the same faults to come. Their clocks may differ. *)
Definition same_disk (w v : world) : Prop :=
  files w = files v /\ io_log w = io_log v /\ disk_fault w = disk_fault v /\
  open_error w = open_error v.

Definition same_outcome {A B} (r : result A) (r' : result B) : Prop :=
  match r, r' with
  | Ok _, Ok _ => True
  | Raise e, Raise e' => e = e'
  | _, _ => False
  end.

End World.
Export World.

Notation "x <- e ;; k" := (bind e (fun x => k))
  (at level 100, e at next level, right associativity).
Notation "e ;;; k" := (bind e (fun _ => k))
  (at level 100, right associativity).

(** ** Library functions used by both datasets *)

Module Lib.

(** [int(s)] on a header value: surrounding white space is dropped, then
    an optional sign and decimal digits, where single underscores may
    separate digits. Anything else raises ValueError. *)
Definition is_space (c : ascii) : bool :=
  let n := nat_of_ascii c in
  ((9 <=? n) && (n <=? 13) || (28 <=? n) && (n <=? 32))%nat.

Definition digit_of (c : ascii) : option Z :=
  let n := Z.of_nat (nat_of_ascii c) in
  if (48 <=? n) && (n <=? 57) then Some (n - 48) else None.

Fixpoint parse_digits (acc : Z) (after_digit : bool) (s : list ascii) : option Z :=
  match s with
  | [] => if after_digit then Some acc else None
  | c :: s' =>
      if Ascii.eqb c "_"
      then (if after_digit then parse_digits acc false s' else None)
      else match digit_of c with
           | Some d => parse_digits (10 * acc + d) true s'
           | None => None
           end
  end.

Definition strip (s : list ascii) : list ascii :=
  let drop_spaces := fix go (l : list ascii) : list ascii :=
    match l with
    | c :: l' => if is_space c then go l' else l
    | [] => []
    end in
  rev (drop_spaces (rev (drop_spaces s))).

Definition int_of_str (s : string) : result Z :=
  let parsed :=
    match strip (list_ascii_of_string s) with
    | c :: r =>
        if Ascii.eqb c "-" then Z.opp <$> parse_digits 0 false r
        else if Ascii.eqb c "+" then parse_digits 0 false r
        else parse_digits 0 false (c :: r)
    | [] => None
    end in
  match parsed with
  | Some z => Ok z
  | None => Raise ValueError
  end.

(** [os.path.join(a, b)] (posixpath) *)
Definition ends_with_slash (a : string) : bool :=
  match rev (list_ascii_of_string a) with
  | c :: _ => Ascii.eqb c "/"
  | [] => false
  end.

Definition join (a b : string) : string :=
  if String.prefix "/" b then b
  else if String.eqb a "" || ends_with_slash a then a ++ b
  else a ++ "/" ++ b.

End Lib.

(** What the rest of the package and the libraries provide, and this
    development takes as given:
    - [create_destination url sign], of [moabb.datasets.download]: the
      triple it returns, whose first component is the local path;
    - the contents of a zip archive, as member names and their bytes;
    - the fields of a matrix file;
    - the contents of a Neuroscan file, as [read_raw_cnt] reads them;
    - MNE's data directory for a configuration key. *)
Class Collaborators : Type := {
  create_destination : string -> string -> string * string * string;
  unzip : list byte -> option (list (string * list byte));
  decode_mat : list byte -> option matfile;
  decode_cnt : list byte -> option Mne.Raw;
  mne_get_path : string -> string
}.

(** ** Downloads (BCIComp.py, lines 24-84) *)

Module BCIComp.
Import Lib.

Definition trainURL : string :=
  "http://bbci.de/competition/download/competition_iii/berlin/1000Hz/".
Definition testURL : string :=
  "https://www.bbci.de/competition/iii/results/".

(** Lines 74-77: the new value of [chunk_size] after a chunk that took
    [dt] seconds to arrive. *)
Definition Qltb (a b : Q) : bool := negb (Qle_bool b a).

Definition adapt (chunk_size : Z) (dt : Q) : Z :=
  if Qltb dt (1 # 100) then chunk_size * 2
  else if Qltb (1 # 10) dt && (8192 <? chunk_size) then chunk_size `div` 2
  else chunk_size.



(** Lines 72-82: the loop over the chunks that the iterator yields. The
    iterator was made once, before the loop, so the loop walks a fixed
    list; [chunk_size] and [t0] are the local variables. The loop returns
    the values that [chunk_size] took, one per chunk received. *)
Fixpoint download_loop (temp_file_name : string) (chunks : list arrival)
    (chunk_size : Z) (t0 : Q) : io (list Z) :=
  match chunks with
  | [] => ret []
  | Broken :: _ => raise RequestException
  | Chunk chunk :: rest =>
      now <- time_time ;;
      let dt := (now - t0)%Q in
      let chunk_size := adapt chunk_size dt in
      match chunk with
      | [] => ret [chunk_size]
      | _ :: _ =>
          write temp_file_name chunk ;;;
          console (Z.of_nat (length chunk)) ;;;
          t0 <- time_time ;;
          sizes <- download_loop temp_file_name rest chunk_size t0 ;;
          ret (chunk_size :: sizes)
      end
  end.

(** Line 62: [int(response.headers.get('Content-Length', '0').strip())] *)
Definition file_size_of (resp : response) : result Z :=
  int_of_str (string_of_list_ascii (strip (list_ascii_of_string
                (default "0" (content_length resp))))).

(** Lines 60-84 *)
Definition download_file (destination : string) (resp : response) : io string :=
  let temp_file_name := destination ++ ".part" in
  let initial_size := 0 in
  file_size <- lift (file_size_of resp) ;;
  let file_size := file_size + initial_size in
  let mode := if 0 <? initial_size then "ab" else "wb" in
  console file_size ;;;
  let chunk_size := 8192 in
  open_for_writing temp_file_name mode ;;;
  t0 <- time_time ;;
  download_loop temp_file_name (iter_content resp chunk_size) chunk_size t0 ;;;
  move temp_file_name destination ;;;
  ret destination.

(** The same transfer with a chunk size that never changes: no clock is
    read and no size is adapted. This is the reference that
    [download_file] is compared with. *)
Fixpoint fixed_loop (temp_file_name : string) (chunks : list arrival) : io unit :=
  match chunks with
  | [] => ret tt
  | Broken :: _ => raise RequestException
  | Chunk chunk :: rest =>
      match chunk with
      | [] => ret tt
      | _ :: _ =>
          write temp_file_name chunk ;;;
          console (Z.of_nat (length chunk)) ;;;
          fixed_loop temp_file_name rest
      end
  end.

Definition download_fixed (destination : string) (resp : response) : io string :=
  let temp_file_name := destination ++ ".part" in
  file_size <- lift (file_size_of resp) ;;
  console file_size ;;;
  open_for_writing temp_file_name "wb" ;;;
  fixed_loop temp_file_name (iter_content resp 8192) ;;;
  move temp_file_name destination ;;;
  ret destination.


(** The world after a chunk was written and reported, with the clock
    read before and after. *)
Definition after_chunk (temp : string) (chunk : list byte) (w : world) : world :=
  tick (log (IoConsole (Z.of_nat (length chunk)))
         (log (IoWrite temp (length chunk))
            (set_files (alter (fun old => old ++ chunk)%list temp (files w))
               (tick w)))).

(** The world in which the loop of [download_file] starts. *)
Definition at_loop_start (temp : string) (file_size : Z) (w : world) : world :=
  tick (log (IoOpen temp)
          (set_files (<[temp := []]> (files w))
             (log (IoConsole (file_size + 0)) w))).

Section Resolve.
Context `{Collaborators}.

(** [ZipFile(zippath).extractall(base_path)]: every member is written
    under [base_path]. *)
Definition extractall (zippath base_path : string) : io unit :=
  fun w =>
    match files w !! zippath with
    | None => (log (IoExtract zippath base_path) w, Raise FileNotFoundError)
    | Some content =>
        match unzip content with
        | None => (log (IoExtract zippath base_path) w, Raise BadZipFile)
        | Some members =>
            (log (IoExtract zippath base_path)
               (set_files
                  (fold_left (fun fs m => <[join base_path m.1 := m.2]> fs)
                     members (files w)) w),
             Ok tt)
        end
    end.

(** Lines 28-41. The template of [matpath] is joined first and filled
    with the subject afterwards, as in the source. *)
Definition train_zippath (subject sign : string) : string :=
  let '(base_path, _, _) := create_destination trainURL sign in
  join base_path ("data_set_IVa_" ++ subject ++ "_mat.zip").

Definition train_matpath (subject sign : string) : string :=
  let '(base_path, _, _) := create_destination trainURL sign in
  join base_path ((join "1000Hz" "data_set_IVa_") ++ subject ++ ".mat").

Definition download_train (subject sign : string) (timeout : Z) : io string :=
  let url := trainURL ++ "data_set_IVa_" ++ subject ++ "_mat.zip" in
  let '(base_path, key, path) := create_destination trainURL sign in
  let zippath := join base_path ("data_set_IVa_" ++ subject ++ "_mat.zip") in
  let matpath := join base_path ((join "1000Hz" "data_set_IVa_") ++ subject ++ ".mat") in
  cached <- isfile matpath ;;
  (if negb cached then
     have_zip <- isfile zippath ;;
     zippath <- (if negb have_zip then
                   let auth := ("amar.yousif09@gmail.com", "AThaLe9ied") in
                   response <- requests_get (mk_request url (Some auth) timeout true) ;;
                   download_file zippath response
                 else ret zippath) ;;
     extractall zippath base_path ;;;
     remove zippath
   else ret tt) ;;;
  ret matpath.

(** Lines 44-50 *)
Definition test_destination (subject sign : string) : string :=
  let url := testURL ++ "berlin_IVa/true_labels_" ++ subject ++ ".mat" in
  let '(destination, _, _) := create_destination url sign in
  destination.

Definition download_test (subject sign : string) (timeout : Z) : io string :=
  let url := testURL ++ "berlin_IVa/true_labels_" ++ subject ++ ".mat" in
  let '(destination, key, path) := create_destination url sign in
  cached <- isfile destination ;;
  (if negb cached then
     response <- requests_get (mk_request url None timeout false) ;;
     download_file destination response ;;;
     ret tt
   else ret tt) ;;;
  ret destination.

(** [scipy.io.loadmat(path)] *)
Definition loadmat (path : string) : io matfile :=
  fun w =>
    match files w !! path with
    | None => (log (IoRead path) w, Raise FileNotFoundError)
    | Some content =>
        match decode_mat content with
        | Some m => (log (IoRead path) w, Ok m)
        | None => (log (IoRead path) w, Raise ValueError)
        end
    end.

End Resolve.

End BCIComp.

(** ** Dataset4a: assembly of one subject (BCIComp.py, lines 129-163) *)

Module Dataset4a.
Import Mne.

Definition sessions : Type := gmap string (gmap string RawArray).

(** Lines 148-149: the boundary index is the least entry of [test_idx],
    the split position is the cue at that index. *)
Definition sep_idx (test_data : matfile) : result Z :=
  test_idx <-r field (mat_test_idx test_data) ;;
  Np.min test_idx.

Definition sep_pos (train_data test_data : matfile) : result Z :=
  cue_pos <-r field (mat_mrk train_data) ;;
  i <-r sep_idx test_data ;;
  getitem cue_pos i.

(** Lines 146-150: the event row. *)
Definition raw_event (train_data test_data : matfile) : result Np.ndarray :=
  cnt <-r field (mat_cnt train_data) ;;
  let raw_data := Np.transpose cnt in
  cue_pos <-r field (mat_mrk train_data) ;;
  true_y <-r field (mat_true_y test_data) ;;
  Np.setitem_cols (Np.zeros 1 (Np.ncols raw_data)) cue_pos true_y.

(** Lines 154-155: the two segments of the combined matrix. *)
Definition train_part (data : Np.ndarray) (p : Z) : Np.ndarray :=
  Np.cols_slice None (Some p) data.

Definition test_part (data : Np.ndarray) (p : Z) : Np.ndarray :=
  Np.cols_slice (Some p) None data.

(** Lines 132-163: what [_get_single_subject_data] does once the two
    files are loaded. *)
Definition assemble (train_data test_data : matfile) : result sessions :=
  nfo <-r field (mat_nfo train_data) ;;
  let eeg_ch_names := nfo.2 in
  let ch_names := (eeg_ch_names ++ ["stim"])%list in
  let ch_types := (replicate 118 "eeg" ++ ["stim"])%list in
  let sfreq := nfo.1 in
  info <-r create_info ch_names ch_types sfreq ;;
  cnt <-r field (mat_cnt train_data) ;;
  let raw_data := Np.transpose cnt in
  cue_pos <-r field (mat_mrk train_data) ;;
  test_idx <-r field (mat_test_idx test_data) ;;
  sep_idx <-r Np.min test_idx ;;
  sep_pos <-r getitem cue_pos sep_idx ;;
  true_y <-r field (mat_true_y test_data) ;;
  raw_event <-r Np.setitem_cols (Np.zeros 1 (Np.ncols raw_data)) cue_pos true_y ;;
  data <-r Np.concatenate0 raw_data raw_event ;;
  raw_train <-r new_RawArray (train_part data sep_pos) info ;;
  raw_test <-r new_RawArray (test_part data sep_pos) info ;;
  Ok {[ "session_1" := {[ "train" := raw_train; "test" := raw_test ]} ]}.

(** How a consumer reads one recording of the output. *)
Definition segment (r : result sessions) (name : string) : option RawArray :=
  match r with
  | Ok s => m ← s !! "session_1"; m !! name
  | Raise _ => None
  end.

(** Modelled from the spec: [BaseDataset.__init__], of
    [moabb/datasets/base.py], is not among the sources. The population
    declared at lines 118-124, [subjects=list(range(1, 6))], is what
    [self.subject_list] holds; [sessions_per_subject] is kept as declared. *)
Definition subject_list : list Z := map Z.of_nat (seq 1 5).
Definition sessions_per_subject : Z := 4.

(** Line 125 *)
Definition subject_names : list string := ["aa"; "al"; "av"; "aw"; "ay"].

Section Methods.
Context `{Collaborators}.

(** Lines 165-174 *)
Definition data_path (subject : Z) : io (list string) :=
  if negb (bool_decide (subject ∈ subject_list))
  then raise ValueError
  else
    subject <- lift (getitem subject_names (subject - 1)) ;;
    train_path <- BCIComp.download_train subject "BCIComp" 30 ;;
    test_path <- BCIComp.download_test subject "BCIComp" 30 ;;
    ret [train_path; test_path].

(** Lines 127-163 *)
Definition _get_single_subject_data (subject : Z) : io sessions :=
  paths <- data_path subject ;;
  train_path <- lift (getitem paths 0) ;;
  test_path <- lift (getitem paths 1) ;;
  train_data <- BCIComp.loadmat train_path ;;
  test_data <- BCIComp.loadmat test_path ;;
  lift (assemble train_data test_data).

End Methods.

End Dataset4a.

(** ** Ma2020 (Ma2020.py) *)

Module Ma2020.
Import Lib Mne.

Definition raw_ch_names (raw : Raw) : list string := map fst (channels raw).

(** [raw.drop_channels(names)]: a name that is not a channel of the
    recording is refused, and so is a selection that leaves no channel.
    The channel names of a recording are pairwise different. *)
Definition drop_channels (names : list string) (raw : Raw) : result Raw :=
  if negb (bool_decide (Forall (fun name => name ∈ raw_ch_names raw) names))
  then Raise ValueError
  else
    match filter (fun c => c.1 ∉ names) (channels raw) with
    | [] => Raise ValueError
    | kept => Ok (mk_Raw (info_sfreq raw) kept (annotations raw))
    end.

(** [a.astype('<U11')]: at most eleven characters of every string. *)
Fixpoint truncate (n : nat) (s : string) : string :=
  match n, s with
  | S n', String c s' => String c (truncate n' s')
  | _, _ => ""
  end.

Definition astype_U11 (a : list string) : list string := map (truncate 11) a.

(** [a[a == old] = new] *)
Definition replace_eq (old new : string) (a : list string) : list string :=
  map (fun s => if String.eqb s old then new else s) a.

Definition set_descriptions (stim : list string) (anns : list annotation)
    : list annotation :=
  zip_with (fun a d => mk_annotation (onset a) (duration a) d) anns stim.

(** An event row: sample, previous value, event code. *)
Definition event : Type := (Q * Z * Z)%type.

(** Lines 77-79: 75 rows of zeros, then the first column is
    [np.arange(75.0) * sfreq * 4.25] and the last column is 3. *)
Definition rest_events (sfreq : Q) : list event :=
  map (fun k => ((inject_Z (Z.of_nat k) * sfreq * (425 # 100))%Q, 0, 3))
    (seq 0 75).

(** [annotations_from_events(events, sfreq, event_desc)]: an event whose
    code has a description becomes an annotation at [sample / sfreq]
    seconds, without duration. *)
Definition annotations_from_events (events : list event) (sfreq : Q)
    (event_desc : list (Z * string)) : list annotation :=
  omap (fun e : event =>
          d ← (list_to_map event_desc : gmap Z string) !! e.2;
          Some (mk_annotation (e.1.1 / sfreq)%Q 0 d))
       events.

(** The annotation that the k-th rest event becomes. *)
Definition rest_annotation (sfreq : Q) (k : nat) : annotation :=
  mk_annotation ((inject_Z (Z.of_nat k) * sfreq * (425 # 100)) / sfreq)%Q 0 "rest".

(** The table of lines 72-73, applied to one description. *)
Definition relabelled (d : string) : string :=
  if String.eqb d "1" then "right_hand"
  else if String.eqb d "2" then "right_elbow"
  else truncate 11 d.

(** Lines 65-80: what is done to the recording of one run. *)
Definition relabel (raw : Raw) : result Raw :=
  let remove_chs := ["HEO"; "VEO"; "EMG1"; "EMG2"] in
  let emg_chs := filter (fun emg => emg ∈ raw_ch_names raw) remove_chs in
  raw <-r drop_channels emg_chs raw ;;
  let stim := astype_U11 (map description (annotations raw)) in
  if negb (Nat.eqb (length stim) 0) then
    let stim := replace_eq "1" "right_hand" stim in
    let stim := replace_eq "2" "right_elbow" stim in
    Ok (mk_Raw (info_sfreq raw) (channels raw)
          (set_descriptions stim (annotations raw)))
  else
    let sfreq := info_sfreq raw in
    let events := rest_events sfreq in
    set_annotations raw (annotations_from_events events sfreq [(3, "rest")]).

Definition sessions : Type := gmap string (gmap string Raw).

(** Modelled from the spec: [BaseDataset.__init__] is not among the
    sources. The population declared at lines 48-55,
    [subjects=list(range(1, 26))], is what [self.subject_list] holds. *)
Definition subject_list : list Z := map Z.of_nat (seq 1 25).
Definition sessions_per_subject : Z := 1.

Section Methods.
Context `{Collaborators}.

(** [read_raw_cnt(path, preload=True)] *)
Definition read_raw_cnt (path : string) : io Raw :=
  fun w =>
    match files w !! path with
    | None => (log (IoRead path) w, Raise FileNotFoundError)
    | Some content =>
        match decode_cnt content with
        | Some raw => (log (IoRead path) w, Ok raw)
        | None => (log (IoRead path) w, Raise ValueError)
        end
    end.

Definition session_path (subject session : Z) : string :=
  if (1 <=? session) && (session <? 16)
  then "sourcedata\sub-" ++ zfill 3 subject ++ "\ses-" ++ zfill 2 session
         ++ "\eeg\sub-" ++ zfill 3 subject ++ "_ses-" ++ zfill 2 session
         ++ "_task-motorimagery_eeg.cnt"
  else "sourcedata\sub-" ++ zfill 3 subject ++ "\ses-" ++ zfill 2 session
         ++ "\eeg\sub-" ++ zfill 3 subject ++ "_ses-" ++ zfill 2 session
         ++ "_task-rest_eeg.cnt".

(** Lines 85-107 *)
Definition data_path (subject : Z) : io (list string) :=
  if negb (bool_decide (subject ∈ subject_list))
  then raise ValueError
  else
    let key := "MNE-ma2020-data" in
    let path := mne_get_path key in
    (fun w => (log (IoConfig key) (log (IoConfig key) w), Ok tt)) ;;;
    let basepath := join path key in
    found <- isdir basepath ;;
    if negb found then
      console 0 ;;;
      raise FileNotFoundError
    else
      ret (map (fun session => join basepath (session_path subject session))
             (map Z.of_nat (seq 1 19))).

(** Lines 63-82: the loop over the runs; [runs] are the values of
    [run] still to come. *)
Fixpoint load_runs (file_paths : list string) (runs : list Z)
    (session : gmap string Raw) : io (gmap string Raw) :=
  match runs with
  | [] => ret session
  | run :: runs' =>
      path <- lift (getitem file_paths (run - 1)) ;;
      raw <- read_raw_cnt path ;;
      raw <- lift (relabel raw) ;;
      let run_name := "run_" ++ str_of_Z run in
      load_runs file_paths runs' (<[run_name := raw]> session)
  end.

(** Lines 57-83 *)
Definition _get_single_subject_data (subject : Z) : io sessions :=
  file_paths <- data_path subject ;;
  session <- load_runs file_paths (map Z.of_nat (seq 1 19)) ∅ ;;
  ret {[ "session_1" := session ]}.

End Methods.

End Ma2020.

(** ** Concrete inputs *)

Module Examples.

(** A silent recording of [n] samples on 118 channels, sampled at 1000 Hz,
    with the given cue positions; and a label file. *)
Definition recording (n : nat) (cue_pos : list Z) : matfile :=
  mk_matfile (Some (Np.zeros n 118)) (Some (1000 # 1, replicate 118 "Cz"))
    (Some cue_pos) None None.

Definition labels (test_idx true_y : list Z) : matfile :=
  mk_matfile None None None (Some test_idx) (Some true_y).


(** A clock that shows the given readings, one per call. *)
Definition clock_of (readings : list Q) : nat -> Q :=
  fun k => nth k readings 0%Q.

(** Readings under which three chunks arrive after 0.005 s, 0.005 s and
    0.2 s. *)
Definition readings : list Q :=
  [0; 5 # 1000; 1; 1 + (5 # 1000); 2; 2 + (2 # 10); 3]%Q.

Definition three_chunks : list arrival :=
  [Chunk ["a"; "b"]%byte; Chunk ["c"]%byte; Chunk ["d"; "e"; "f"]%byte].

(** A response of six bytes, and one that breaks after two. *)
Definition complete_response : response :=
  mk_response (Some "6") (fun _ => three_chunks).

Definition broken_response : response :=
  mk_response (Some "6") (fun _ => [Chunk ["a"; "b"]%byte; Broken]).

(** The same body as [complete_response] at 8192 bytes per read, another
    split at any other size. *)
Definition resized_response : response :=
  mk_response (Some "6")
    (fun n => if n =? 8192 then three_chunks
              else [Chunk ["a"; "b"; "c"; "d"; "e"; "f"]%byte]).

Definition train_bytes : list byte := ["t"]%byte.
Definition label_bytes : list byte := ["l"]%byte.

Definition small_raw : Mne.Raw :=
  Mne.mk_Raw (1000 # 1) [("C3", [1; 2; 3]); ("EMG1", [4; 5; 6])]
    [Mne.mk_annotation (1 # 1000) 0 "1"; Mne.mk_annotation (2 # 1000) 0 "2"].

#[local] Instance demo : Collaborators := {|
  create_destination := fun url sign => ("/cache/" ++ sign ++ "/" ++ url, sign, "/cache");
  unzip := fun content => Some [("1000Hz/data_set_IVa_aa.mat", content)];
  decode_mat := fun content =>
    match content with
    | ["t"%byte] => Some (recording 10 [2; 5; 8])
    | ["l"%byte] => Some (labels [2] [1; 2; 0])
    | _ => None
    end;
  decode_cnt := fun _ => Some small_raw;
  mne_get_path := fun _ => "/mne_data"
|}.

Definition world_with (fs : gmap string (list byte)) (ds : gset string)
    (r : response) : world :=
  mk_world fs ds [] 0 (clock_of readings) (fun _ => Answer r) (fun _ => false)
    (fun _ => None).

(** Nothing cached yet. *)
Definition cold : world := world_with ∅ ∅ complete_response.

(** Both files of subject 1 of Dataset4a are in the cache. *)
Definition cached_4a : world :=
  world_with
    {[ BCIComp.train_matpath "aa" "BCIComp" := train_bytes;
       BCIComp.test_destination "aa" "BCIComp" := label_bytes ]}
    ∅ complete_response.

(** The nineteen recordings of subject 7 of Ma2020 are on disk. *)
Definition ma2020_dir : string := Lib.join "/mne_data" "MNE-ma2020-data".

Definition on_disk_ma2020 : world :=
  world_with
    (list_to_map
       (map (fun session =>
               (Lib.join ma2020_dir (Ma2020.session_path 7 (Z.of_nat session)),
                []))
            (seq 1 19)))
    {[ ma2020_dir ]} complete_response.

End Examples.

(** ** Further notions used in the statements *)

Module More.

(** The bytes that the loop of lines 72-82 writes when neither the
    stream nor the disk fails: the chunks in order, up to the first empty
    chunk, the point where the connection breaks, or the end. *)
Fixpoint body (chunks : list arrival) : list byte :=
  match chunks with
  | Chunk (b :: chunk) :: rest => (b :: chunk) ++ body rest
  | _ => []
  end.

(** The channels that lines 66-68 of Ma2020.py remove. *)
Definition remove_chs : list string := ["HEO"; "VEO"; "EMG1"; "EMG2"].

(** Where [Ma2020.data_path] looks for the recordings. *)
Definition ma2020_basepath `{Collaborators} : string :=
  Lib.join (mne_get_path "MNE-ma2020-data") "MNE-ma2020-data".

Definition ma2020_file `{Collaborators} (subject : Z) (session : nat) : string :=
  Lib.join ma2020_basepath (Ma2020.session_path subject (Z.of_nat session)).

(** The condition under which lines 132-155 of BCIComp.py go through:
    118 channel names, 118 signal columns, a boundary index that
    addresses a cue, cue positions that address samples, and as many
    labels as cues (or one). *)
Definition assembles (names : list string) (cnt : Np.ndarray)
    (cue_pos test_idx true_y : list Z) : Prop :=
  length names = 118%nat /\
  Np.ncols cnt = 118%nat /\
  (exists i, Np.min test_idx = Ok i /\
             - Z.of_nat (length cue_pos) <= i < Z.of_nat (length cue_pos)) /\
  Forall (fun c => - Z.of_nat (Np.nrows cnt) <= c < Z.of_nat (Np.nrows cnt)) cue_pos /\
  (length true_y = length cue_pos \/ length true_y = 1%nat).


#[local] Instance other_archive : Collaborators := {|
  create_destination := create_destination (Collaborators := Examples.demo);
  unzip := fun content => Some [("readme.txt", content)];
  decode_mat := decode_mat (Collaborators := Examples.demo);
  decode_cnt := decode_cnt (Collaborators := Examples.demo);
  mne_get_path := mne_get_path (Collaborators := Examples.demo)
|}.


(** A world whose disk holds an old destination and an old partial file. *)
Definition stale : world :=
  Examples.world_with {[ "f" := ["o"; "l"; "d"]%byte; "f.part" := ["x"]%byte ]}
    ∅ Examples.complete_response.

(** A server that cannot be reached. *)
Definition offline : world :=
  mk_world ∅ ∅ [] 0 (Examples.clock_of []) (fun _ => Unreachable) (fun _ => false)
    (fun _ => None).

(** What lines 70-74 make of one annotation. *)
Definition relabel_annotation (a : Mne.annotation) : Mne.annotation :=
  Mne.mk_annotation (Mne.onset a) (Mne.duration a)
    (Ma2020.relabelled (Mne.description a)).

(** Recordings without annotations: three samples at 1000 Hz, and 315
    samples at 1 Hz; and a recording that has only channels that
    lines 66-68 remove. *)
Definition short_rest : Mne.Raw :=
  Mne.mk_Raw (1000 # 1) [("C3", [1; 2; 3]); ("VEO", [4; 5; 6])] [].

Definition long_rest : Mne.Raw :=
  Mne.mk_Raw 1 [("C3", replicate 315 0)] [].

Definition only_emg : Mne.Raw :=
  Mne.mk_Raw (1000 # 1) [("EMG1", [1; 2; 3]); ("EMG2", [4; 5; 6])]
    [Mne.mk_annotation (1 # 1000) 0 "1"].

(** A disk that fails at its fifth operation. *)
Definition failing_disk : world :=
  mk_world ∅ ∅ [] 0 (Examples.clock_of Examples.readings)
    (fun _ => Answer Examples.complete_response) (fun n => Nat.eqb n 4)
    (fun _ => None).

(** A cache that has become read-only: it holds an old partial file,
    and no file can be opened for writing. *)
Definition read_only_cache : world :=
  mk_world {[ "f.part" := ["x"]%byte ]} ∅ [] 0 (Examples.clock_of Examples.readings)
    (fun _ => Answer Examples.complete_response) (fun _ => false)
    (fun _ => Some OSError).

End More.

(** * Properties *)

(** ** Results, indices and slices *)

Module PyFacts.

Lemma rbind_ok {A B} (r : result A) (k : A -> result B) (b : B) :
  rbind r k = Ok b -> exists a, r = Ok a /\ k a = Ok b.
Proof. destruct r as [a|e]; simpl; [eauto | discriminate]. Qed.

Lemma field_ok {A} (f : option A) (x : A) : field f = Ok x -> f = Some x.
Proof. destruct f; simpl; congruence. Qed.

Lemma not_ok_false {A} (r : result A) :
  (forall a, r = Ok a -> False) -> is_ok r = false.
Proof. destruct r; [intros H; exfalso; eauto | reflexivity]. Qed.

Lemma positive_rate (sf : Q) : (0 < sf)%Q <-> Qle_bool sf 0 = false.
Proof.
  split.
  - intros Hsf. destruct (Qle_bool sf 0) eqn:E; [|reflexivity].
    apply Qle_bool_iff in E. apply Qlt_not_le in Hsf. contradiction.
  - intros E. apply Qnot_le_lt. intros Hle. apply Qle_bool_iff in Hle. congruence.
Qed.

Lemma norm_index_some n i j :
  norm_index n i = Some j ->
  - n <= i < n /\ 0 <= j < n /\ (0 <= i -> j = i) /\ (i < 0 -> j = i + n).
Proof.
  unfold norm_index.
  destruct ((0 <=? i) && (i <? n)) eqn:E1.
  - intros [= <-]. apply andb_true_iff in E1. lia.
  - destruct ((- n <=? i) && (i <? 0)) eqn:E2; [|discriminate].
    intros [= <-]. apply andb_true_iff in E2. lia.
Qed.

Lemma norm_index_out n i : i < - n \/ n <= i -> norm_index n i = None.
Proof.
  intros Hi. destruct (norm_index n i) as [j|] eqn:E; [|reflexivity].
  apply norm_index_some in E. lia.
Qed.

Lemma norm_index_wrap n i : - n <= i < 0 -> norm_index n i = Some (i + n).
Proof.
  intros Hi. unfold norm_index.
  replace ((0 <=? i) && (i <? n)) with false
    by (symmetry; apply andb_false_iff; lia).
  replace ((- n <=? i) && (i <? 0)) with true
    by (symmetry; apply andb_true_iff; lia).
  reflexivity.
Qed.

Lemma norm_index_id n i : 0 <= i < n -> norm_index n i = Some i.
Proof.
  intros Hi. unfold norm_index.
  replace ((0 <=? i) && (i <? n)) with true
    by (symmetry; apply andb_true_iff; lia).
  reflexivity.
Qed.

Lemma getitem_ok {A} (l : list A) (i : Z) (x : A) :
  getitem l i = Ok x ->
  exists j, norm_index (Z.of_nat (length l)) i = Some j /\ l !! Z.to_nat j = Some x.
Proof.
  unfold getitem. destruct (norm_index _ i) as [j|]; [|discriminate].
  destruct (l !! Z.to_nat j) eqn:E; [|discriminate]. intros [= <-]. eauto.
Qed.

Lemma getitem_out {A} (l : list A) (i : Z) :
  i < - Z.of_nat (length l) \/ Z.of_nat (length l) <= i ->
  getitem l i = Raise IndexError.
Proof.
  intros Hi. unfold getitem. rewrite norm_index_out by exact Hi. reflexivity.
Qed.

Lemma getitem_wrap {A} (l : list A) (i : Z) :
  - Z.of_nat (length l) <= i < 0 ->
  getitem l i = getitem l (i + Z.of_nat (length l)).
Proof.
  intros Hi. unfold getitem.
  rewrite norm_index_wrap by exact Hi. rewrite norm_index_id by lia. reflexivity.
Qed.

Section Slices.
Context {A : Type}.
Implicit Types (l : list A) (p : Z).

Lemma slice_bound_valid n p : 0 <= p <= n -> slice_bound n p = p.
Proof. unfold slice_bound. destruct (p <? 0) eqn:E; lia. Qed.

Lemma slice_bound_range n p : 0 <= n -> 0 <= slice_bound n p <= n.
Proof. unfold slice_bound. destruct (p <? 0) eqn:E; lia. Qed.

Lemma slice_to l p :
  slice None (Some p) l
  = take (Z.to_nat (slice_bound (Z.of_nat (length l)) p)) l.
Proof. unfold slice. simpl. rewrite drop_0. f_equal. lia. Qed.

Lemma slice_from l p :
  slice (Some p) None l
  = drop (Z.to_nat (slice_bound (Z.of_nat (length l)) p)) l.
Proof.
  unfold slice. simpl.
  pose proof (slice_bound_range (Z.of_nat (length l)) p ltac:(lia)).
  apply take_ge. rewrite length_drop. lia.
Qed.

End Slices.

Lemma zip_with_take_drop {A} (n : nat) (rows : list (list A)) :
  zip_with app (map (take n) rows) (map (drop n) rows) = rows.
Proof.
  induction rows as [|r rows IH]; simpl; [reflexivity|].
  rewrite take_drop. f_equal. exact IH.
Qed.

Lemma map_slice_to (n : nat) (p : Z) (rows : list (list Z)) :
  Forall (fun r => length r = n) rows ->
  map (slice None (Some p)) rows
  = map (take (Z.to_nat (slice_bound (Z.of_nat n) p))) rows.
Proof.
  intros Hwf. apply map_ext_Forall. eapply Forall_impl; [exact Hwf|].
  intros r Hr. simpl in Hr. rewrite slice_to, Hr. reflexivity.
Qed.

Lemma map_slice_from (n : nat) (p : Z) (rows : list (list Z)) :
  Forall (fun r => length r = n) rows ->
  map (slice (Some p) None) rows
  = map (drop (Z.to_nat (slice_bound (Z.of_nat n) p))) rows.
Proof.
  intros Hwf. apply map_ext_Forall. eapply Forall_impl; [exact Hwf|].
  intros r Hr. simpl in Hr. rewrite slice_from, Hr. reflexivity.
Qed.

End PyFacts.

Ltac rbind_inv H :=
  repeat (cbv beta zeta in H;
          match type of H with
          | rbind _ _ = Ok _ =>
              let a := fresh "a" in
              let E := fresh "E" in
              apply PyFacts.rbind_ok in H; destruct H as (a & E & H)
          end).

(** ** Indexed assignment *)

Module NpFacts.
Import PyFacts.

Lemma check_indices_ok n idx js :
  Np.check_indices n idx = Ok js ->
  Forall2 (fun i j => norm_index (Z.of_nat n) i = Some (Z.of_nat j)) idx js.
Proof.
  revert js. induction idx as [|i idx IH]; simpl; intros js Hjs.
  - injection Hjs as <-. constructor.
  - destruct (norm_index (Z.of_nat n) i) as [j|] eqn:E; [|discriminate].
    rbind_inv Hjs. injection Hjs as <-.
    constructor; [|apply IH; assumption].
    rewrite E. f_equal. apply norm_index_some in E. lia.
Qed.

Lemma scatter_length row ws : length (Np.scatter row ws) = length row.
Proof.
  unfold Np.scatter. revert row. induction ws as [|w ws IH]; intros row; simpl.
  - reflexivity.
  - rewrite IH. apply length_insert.
Qed.



Lemma setitem_cols_zeros_ok N idx vals ev :
  Np.setitem_cols (Np.zeros 1 N) idx vals = Ok ev ->
  exists vs js,
    Np.broadcast_to (length idx) vals = Ok vs /\
    Np.check_indices N idx = Ok js /\
    ev = Np.mk_ndarray 1 N [Np.scatter (replicate N 0) (zip js vs)].
Proof.
  unfold Np.setitem_cols. intros Hev. rbind_inv Hev. injection Hev as <-.
  exists a, a0. auto.
Qed.

Lemma setitem_cols_zeros_shape N idx vals ev :
  Np.setitem_cols (Np.zeros 1 N) idx vals = Ok ev ->
  Np.nrows ev = 1%nat /\ Np.ncols ev = N.
Proof.
  intros Hev. apply setitem_cols_zeros_ok in Hev as (vs & js & _ & _ & ->).
  split; reflexivity.
Qed.



End NpFacts.

(** ** Dataset4a: the two segments *)

Module Dataset4aFacts.
Import PyFacts NpFacts Dataset4a.





End Dataset4aFacts.

(** ** Dataset4a: the split position and the event row *)

Module AssemblyFacts.
Import PyFacts NpFacts Dataset4a.

(** What a successful assembly went through. *)
Lemma assemble_ok (train_data test_data : matfile) (s : sessions) :
  assemble train_data test_data = Ok s ->
  exists nfo info cnt cue_pos test_idx i p true_y ev data raw_train raw_test,
    mat_nfo train_data = Some nfo /\
    Mne.create_info (nfo.2 ++ ["stim"])%list (replicate 118 "eeg" ++ ["stim"])%list
      nfo.1 = Ok info /\
    mat_cnt train_data = Some cnt /\
    mat_mrk train_data = Some cue_pos /\
    mat_test_idx test_data = Some test_idx /\
    Np.min test_idx = Ok i /\
    getitem cue_pos i = Ok p /\
    mat_true_y test_data = Some true_y /\
    Np.setitem_cols (Np.zeros 1 (Np.nrows cnt)) cue_pos true_y = Ok ev /\
    Np.concatenate0 (Np.transpose cnt) ev = Ok data /\
    Mne.new_RawArray (train_part data p) info = Ok raw_train /\
    Mne.new_RawArray (test_part data p) info = Ok raw_test /\
    s = {[ "session_1" := {[ "train" := raw_train; "test" := raw_test ]} ]}.
Proof.
  unfold assemble. intros Hs. rbind_inv Hs.
  injection Hs as <-.
  apply field_ok in E, E1, E2, E3, E6.
  exists a, a0, a1, a2, a3, a4, a5, a6, a7, a8, a9, a10.
  repeat split; assumption || reflexivity.
Qed.


Lemma sep_pos_eq (train_data test_data : matfile) cue_pos test_idx :
  mat_mrk train_data = Some cue_pos ->
  mat_test_idx test_data = Some test_idx ->
  sep_pos train_data test_data = (i <-r Np.min test_idx ;; getitem cue_pos i).
Proof. intros H1 H2. unfold sep_pos, sep_idx. rewrite H1, H2. reflexivity. Qed.


(** The cut at a split position p in [-N, N) is the cut at the sample
    index that p denotes. *)
Lemma cut_at_denoted_index (data : Np.ndarray) (p : Z) :
  Np.wf data ->
  let q := slice_bound (Z.of_nat (Np.ncols data)) p in
  train_part data p = train_part data q /\ test_part data p = test_part data q.
Proof.
  intros [_ Hrows] q.
  assert (Hq : slice_bound (Z.of_nat (Np.ncols data)) q = q).
  { apply slice_bound_valid. apply slice_bound_range. lia. }
  unfold train_part, test_part, Np.cols_slice. cbn [slice_start slice_stop].
  rewrite !(map_slice_to (Np.ncols data)), !(map_slice_from (Np.ncols data))
    by exact Hrows.
  rewrite Hq. auto.
Qed.

(** C1, as the code has it. The split position is not checked by the
    assembly itself; what holds comes from numpy's own index checks.
    - Whenever assembly succeeds, the split position p is one of the cue
      positions and satisfies -N <= p < N for N samples. The combined
      matrix (the transposed signal over the event row) is cut with p:
      the train recording is [data[:, :p]], the test recording is
      [data[:, p:]], and they have q and N - q samples, where q, the
      index [slice_bound N p], lies in [0, N) and is p itself when p
      is not negative and p + N when it is. For a well-formed signal
      matrix these are the cuts of the combined matrix at q.
    - With an empty [test_idx] there is no boundary: [np.min] raises
      ValueError and assembly fails.
    - With k cue positions and a boundary index i outside [-k, k),
      reading the cue raises IndexError and assembly fails.
    - A boundary index i with -k <= i < 0 is not refused: it is counted
      from the end, and the cue at index i + k is taken. *)
Theorem split_position_from_numpy_checks (train_data test_data : matfile) :
  (forall s, assemble train_data test_data = Ok s ->
     exists cnt cue_pos p,
       mat_cnt train_data = Some cnt /\
       mat_mrk train_data = Some cue_pos /\
       sep_pos train_data test_data = Ok p /\
       p ∈ cue_pos /\
       let N := Z.of_nat (Np.nrows cnt) in
       - N <= p < N /\
       0 <= slice_bound N p < N /\
       (0 <= p -> slice_bound N p = p) /\
       (p < 0 -> slice_bound N p = p + N) /\
       exists ev raw_train raw_test,
         raw_event train_data test_data = Ok ev /\
         segment (Ok s) "train" = Some raw_train /\
         segment (Ok s) "test" = Some raw_test /\
         let data := Np.mk_ndarray (Np.ncols cnt + 1) (Np.nrows cnt)
                       (Np.rows (Np.transpose cnt) ++ Np.rows ev)%list in
         Mne.raw_data raw_train = train_part data p /\
         Mne.raw_data raw_test = test_part data p /\
         Z.of_nat (Mne.n_times raw_train) = slice_bound N p /\
         Z.of_nat (Mne.n_times raw_test) = N - slice_bound N p /\
         (Np.wf cnt ->
          Np.wf data /\
          train_part data p = train_part data (slice_bound N p) /\
          test_part data p = test_part data (slice_bound N p))) /\
  (mat_test_idx test_data = Some [] ->
     sep_idx test_data = Raise ValueError /\
     is_ok (assemble train_data test_data) = false) /\
  (forall cue_pos i,
     mat_mrk train_data = Some cue_pos ->
     sep_idx test_data = Ok i ->
     let k := Z.of_nat (length cue_pos) in
     (i < - k \/ k <= i ->
        sep_pos train_data test_data = Raise IndexError /\
        is_ok (assemble train_data test_data) = false) /\
     (- k <= i < 0 ->
        sep_pos train_data test_data = getitem cue_pos (i + k))).
Proof.
  split; [|split].
  - intros s Hs. apply assemble_ok in Hs.
    destruct Hs as (nfo & info & cnt & cue_pos & test_idx & i & p & true_y & ev
                    & data & rtr & rte & Hnfo & Hinfo & Hcnt & Hmrk & Hidx & Hmin
                    & Hget & Hy & Hev & Hdata & Htrain & Htest & ->).
    exists cnt, cue_pos, p. split; [exact Hcnt|]. split; [exact Hmrk|]. split.
    { rewrite (sep_pos_eq _ _ cue_pos test_idx) by assumption.
      rewrite Hmin. exact Hget. }
    pose proof Hev as Hev0.
    apply setitem_cols_zeros_ok in Hev as (vs & js & _ & Hjs & Hrow).
    apply check_indices_ok in Hjs.
    apply getitem_ok in Hget as (j & _ & Hj).
    apply list_elem_of_lookup_2 in Hj. split; [exact Hj|].
    apply (Forall2_Forall_l _
             (fun c => - Z.of_nat (Np.nrows cnt) <= c < Z.of_nat (Np.nrows cnt)))
      in Hjs.
    2:{ apply Forall_forall. intros y _ x Hx. apply norm_index_some in Hx. lia. }
    rewrite Forall_forall in Hjs. specialize (Hjs p Hj). cbv zeta.
    assert (Hq : 0 <= slice_bound (Z.of_nat (Np.nrows cnt)) p
                 < Z.of_nat (Np.nrows cnt)
                 /\ (0 <= p -> slice_bound (Z.of_nat (Np.nrows cnt)) p = p)
                 /\ (p < 0 -> slice_bound (Z.of_nat (Np.nrows cnt)) p
                              = p + Z.of_nat (Np.nrows cnt))).
    { unfold slice_bound. destruct (p <? 0) eqn:E; lia. }
    destruct Hq as (Hq & Hpos & Hneg).
    split; [exact Hjs|]. split; [exact Hq|]. split; [exact Hpos|].
    split; [exact Hneg|].
    unfold Np.concatenate0 in Hdata.
    destruct (decide _); [|discriminate]. injection Hdata as <-.
    unfold Mne.new_RawArray in Htrain, Htest.
    repeat case_decide; try discriminate.
    injection Htrain as <-. injection Htest as <-.
    exists ev, (Mne.mk_RawArray
                  (train_part
                     (Np.mk_ndarray (Np.nrows (Np.transpose cnt) + Np.nrows ev)
                        (Np.ncols (Np.transpose cnt))
                        (Np.rows (Np.transpose cnt) ++ Np.rows ev)%list) p) info),
               (Mne.mk_RawArray
                  (test_part
                     (Np.mk_ndarray (Np.nrows (Np.transpose cnt) + Np.nrows ev)
                        (Np.ncols (Np.transpose cnt))
                        (Np.rows (Np.transpose cnt) ++ Np.rows ev)%list) p) info).
    split.
    { unfold raw_event. rewrite Hcnt, Hmrk, Hy. exact Hev0. }
    split; [reflexivity|]. split; [reflexivity|].
    assert (Hone : Np.nrows ev = 1%nat) by (rewrite Hrow; reflexivity).
    rewrite Hone. change (Np.nrows (Np.transpose cnt)) with (Np.ncols cnt).
    change (Np.ncols (Np.transpose cnt)) with (Np.nrows cnt).
    split; [reflexivity|]. split; [reflexivity|].
    split.
    { unfold Mne.n_times, train_part, Np.cols_slice. simpl. lia. }
    split.
    { unfold Mne.n_times, test_part, Np.cols_slice. simpl. lia. }
    intros [Hlen Hwf].
    assert (Hdatawf : Np.wf (Np.mk_ndarray (Np.ncols cnt + 1) (Np.nrows cnt)
                               (Np.rows (Np.transpose cnt) ++ Np.rows ev)%list)).
    { split; cbn [Np.rows Np.nrows Np.ncols].
      - rewrite length_app. rewrite Hrow. cbn [Np.rows Np.transpose].
        rewrite length_map, length_seq. reflexivity.
      - apply Forall_app. split.
        + cbn [Np.rows Np.transpose]. apply Forall_fmap, Forall_forall.
          intros c _. simpl. rewrite length_map. exact Hlen.
        + rewrite Hrow. cbn [Np.rows]. constructor; [|constructor].
          rewrite scatter_length. apply length_replicate. }
    split; [exact Hdatawf|].
    exact (cut_at_denoted_index _ p Hdatawf).
  - intros Hidx. split.
    + unfold sep_idx. rewrite Hidx. reflexivity.
    + apply not_ok_false. intros s Hs. apply assemble_ok in Hs.
      destruct Hs as (nfo & info & cnt & cue_pos & test_idx & i & p & true_y & ev
                      & data & rtr & rte & _ & _ & _ & _ & Hidx' & Hmin & _).
      rewrite Hidx in Hidx'. injection Hidx' as <-. discriminate Hmin.
  - intros cue_pos i Hmrk Hi k. split.
    + intros Hout.
      assert (Hsp : sep_pos train_data test_data = Raise IndexError).
      { unfold sep_pos. rewrite Hmrk, Hi. simpl. apply getitem_out. exact Hout. }
      split; [exact Hsp|].
      apply not_ok_false. intros s Hs. apply assemble_ok in Hs.
      destruct Hs as (nfo & info & cnt & cue_pos' & test_idx & i' & p & true_y & ev
                      & data & rtr & rte & _ & _ & _ & Hmrk' & Hidx' & Hmin & Hget & _).
      rewrite (sep_pos_eq _ _ cue_pos' test_idx) in Hsp by assumption.
      rewrite Hmin in Hsp. simpl in Hsp. congruence.
    + intros Hneg. unfold sep_pos. rewrite Hmrk, Hi. simpl.
      apply getitem_wrap. exact Hneg.
Qed.

Lemma split_position_from_numpy_checks_witness :
  let train_data := Examples.recording 10 [2; 5; 8] in
  let test_data := Examples.labels [2] [1; 2; 0] in
  sep_pos train_data test_data = Ok 8 /\
  exists raw_train raw_test,
    segment (assemble train_data test_data) "train" = Some raw_train /\
    segment (assemble train_data test_data) "test" = Some raw_test /\
    Z.of_nat (Mne.n_times raw_train) = 8 /\
    Z.of_nat (Mne.n_times raw_test) = 2.
Proof.
  intros train_data test_data.
  assert (Hok : is_ok (assemble train_data test_data) = true)
    by (vm_compute; reflexivity).
  assert (Hp : sep_pos train_data test_data = Ok 8) by reflexivity.
  split; [exact Hp|].
  destruct (split_position_from_numpy_checks train_data test_data) as [H _].
  destruct (assemble train_data test_data) as [s|e]; [|discriminate Hok].
  destruct (H s eq_refl)
    as (cnt & cue_pos & p & Hcnt & _ & Hp' & _ & _ & _ & _ & _
        & ev & raw_train & raw_test & _ & Htrain & Htest & _ & _ & Hn & Hm & _).
  injection Hcnt as <-. rewrite Hp in Hp'. injection Hp' as <-.
  exists raw_train, raw_test.
  split; [exact Htrain|]. split; [exact Htest|]. split; [exact Hn | exact Hm].
Defined.

(** C1, counterexample. Two label/cue files that the claim says are
    refused, and that the assembly accepts.
    - Three cues at 100, 500, 900 in 1000 samples and [test_idx = [-1]]:
      the boundary index -1 is not an index of the three cues, yet no
      error is raised; the cue at the end is taken, the split falls at
      sample 900 and the segments have 900 and 100 samples.
    - Cues at 100, 500, -100 and [test_idx = [2]]: the split position is
      -100, which is not in [0, 1000), and assembly succeeds with
      segments of 900 and 100 samples. *)
Lemma split_position_counterexample :
  (let train_data := Examples.recording 1000 [100; 500; 900] in
   let test_data := Examples.labels [-1] [1; 2; 0] in
   sep_idx test_data = Ok (-1) /\
   ~ (0 <= -1 < Z.of_nat (length [100; 500; 900])) /\
   sep_pos train_data test_data = Ok 900 /\
   is_ok (assemble train_data test_data) = true /\
   Mne.n_times <$> segment (assemble train_data test_data) "train" = Some 900%nat /\
   Mne.n_times <$> segment (assemble train_data test_data) "test" = Some 100%nat) /\
  (let train_data := Examples.recording 1000 [100; 500; -100] in
   let test_data := Examples.labels [2] [1; 2; 0] in
   sep_pos train_data test_data = Ok (-100) /\
   ~ (0 <= -100 < 1000) /\
   is_ok (assemble train_data test_data) = true /\
   Mne.n_times <$> segment (assemble train_data test_data) "train" = Some 900%nat /\
   Mne.n_times <$> segment (assemble train_data test_data) "test" = Some 100%nat).
Proof.
  split; cbv zeta.
  - split; [reflexivity|]. split; [simpl; lia|]. split; [reflexivity|].
    repeat split; vm_compute; reflexivity.
  - split; [reflexivity|]. split; [lia|].
    repeat split; vm_compute; reflexivity.
Qed.




End AssemblyFacts.

(** ** Downloads *)

Module DownloadFacts.
Import BCIComp.

(** *** The adaptation rule *)











(** *** The loop, step by step *)

Lemma download_loop_data temp b chunk rest cs t0 w :
  download_loop temp (Chunk (b :: chunk) :: rest) cs t0 w =
    if disk_fault w (length (io_log w))
    then (log (IoWrite temp 0) (tick w), Raise OSError)
    else
      let cs' := adapt cs (clock w (ticks w) - t0) in
      match download_loop temp rest cs' (clock w (S (ticks w)))
              (after_chunk temp (b :: chunk) w) with
      | (w2, Ok sizes) => (w2, Ok (cs' :: sizes))
      | (w2, Raise e) => (w2, Raise e)
      end.
Proof.
  cbn [download_loop]. unfold bind, time_time, write, console, ret, after_chunk.
  cbn [tick disk_fault io_log files ticks clock log set_files].
  destruct (disk_fault w (length (io_log w))); reflexivity.
Qed.

Lemma fixed_loop_data temp b chunk rest w :
  fixed_loop temp (Chunk (b :: chunk) :: rest) w =
    if disk_fault w (length (io_log w))
    then (log (IoWrite temp 0) w, Raise OSError)
    else
      fixed_loop temp rest
        (log (IoConsole (Z.of_nat (length (b :: chunk))))
           (log (IoWrite temp (length (b :: chunk)))
              (set_files
                 (alter (fun old => old ++ b :: chunk)%list temp (files w)) w))).
Proof.
  cbn [fixed_loop]. unfold bind, write, console.
  destruct (disk_fault w (length (io_log w))); reflexivity.
Qed.





(** *** What a download leaves behind *)

Lemma string_length_app (a b : string) :
  String.length (a ++ b) = (String.length a + String.length b)%nat.
Proof. induction a as [|c a IH]; simpl; [reflexivity | rewrite IH; reflexivity]. Qed.

Lemma part_differs (destination : string) : destination ++ ".part" <> destination.
Proof.
  intros E. apply (f_equal String.length) in E.
  rewrite string_length_app in E. simpl in E. lia.
Qed.

Lemma same_env_refl w : same_env w w.
Proof. repeat split. Qed.

Lemma same_env_trans w1 w2 w3 : same_env w1 w2 -> same_env w2 w3 -> same_env w1 w3.
Proof.
  unfold same_env. intros (?&?&?&?&?) (?&?&?&?&?). repeat split; congruence.
Qed.

Lemma transfers_log e w :
  transfers (log e w) = (transfers w + (if is_get e then 1 else 0))%nat.
Proof.
  unfold transfers, log. simpl. rewrite filter_app, length_app. f_equal.
  destruct e; reflexivity.
Qed.

Lemma download_file_run destination resp w :
  download_file destination resp w =
    match file_size_of resp with
    | Raise e => (w, Raise e)
    | Ok n =>
        let temp := destination ++ ".part" in
        match open_error w temp with
        | Some e => (log (IoOpen temp) (log (IoConsole (n + 0)) w), Raise e)
        | None =>
            match download_loop temp (iter_content resp 8192) 8192
                    (clock w (ticks w)) (at_loop_start temp n w) with
            | (w2, Ok _) =>
                match files w2 !! temp with
                | Some c =>
                    (log (IoMove temp destination)
                       (set_files (<[destination := c]> (delete temp (files w2))) w2),
                     Ok destination)
                | None => (log (IoMove temp destination) w2, Raise FileNotFoundError)
                end
            | (w2, Raise e) => (w2, Raise e)
            end
        end
    end.
Proof.
  unfold download_file, lift, bind at 1.
  destruct (file_size_of resp) as [n|e]; [|reflexivity].
  unfold bind, console, open_for_writing, time_time, move, ret, at_loop_start.
  cbn [tick disk_fault io_log files ticks clock log set_files open_error].
  destruct (open_error w _); [reflexivity|].
  change (if 0 <? 0 then "ab" else "wb") with "wb".
  change (if String.eqb "wb" "ab" then _ else []) with (@nil byte).
  destruct (download_loop _ _ _ _ _) as [w2 [sizes|e]]; [|reflexivity].
  destruct (files w2 !! _); reflexivity.
Qed.

Lemma download_fixed_run destination resp w :
  download_fixed destination resp w =
    match file_size_of resp with
    | Raise e => (w, Raise e)
    | Ok n =>
        let temp := destination ++ ".part" in
        match open_error w temp with
        | Some e => (log (IoOpen temp) (log (IoConsole n) w), Raise e)
        | None =>
            match fixed_loop temp (iter_content resp 8192)
                    (log (IoOpen temp)
                       (set_files (<[temp := []]> (files w))
                          (log (IoConsole n) w))) with
            | (w2, Ok _) =>
                match files w2 !! temp with
                | Some c =>
                    (log (IoMove temp destination)
                       (set_files (<[destination := c]> (delete temp (files w2))) w2),
                     Ok destination)
                | None => (log (IoMove temp destination) w2, Raise FileNotFoundError)
                end
            | (w2, Raise e) => (w2, Raise e)
            end
        end
    end.
Proof.
  unfold download_fixed, lift, bind at 1.
  destruct (file_size_of resp) as [n|e]; [|reflexivity].
  unfold bind, console, open_for_writing, move, ret.
  cbn [tick disk_fault io_log files ticks clock log set_files open_error].
  destruct (open_error w _); [reflexivity|].
  change (if String.eqb "wb" "ab" then _ else []) with (@nil byte).
  destruct (fixed_loop _ _ _) as [w2 [u|e]]; [|reflexivity].
  destruct (files w2 !! _); reflexivity.
Qed.

Ltac frame_unchanged :=
  split; [intros; reflexivity
         |split; [intros Hs; exact Hs
                 |split; [reflexivity | repeat split]]].

(** The loop changes the temporary file only, keeps it in place, and
    asks nothing from the network. *)
Lemma download_loop_frame temp chunks cs t0 w w' r :
  download_loop temp chunks cs t0 w = (w', r) ->
  (forall p, p <> temp -> files w' !! p = files w !! p) /\
  (is_Some (files w !! temp) -> is_Some (files w' !! temp)) /\
  transfers w' = transfers w /\
  same_env w w'.
Proof.
  revert cs t0 w w' r.
  induction chunks as [|[chunk|] rest IH]; intros cs t0 w w' r Hrun.
  - injection Hrun as <- <-. frame_unchanged.
  - destruct chunk as [|b chunk].
    + cbn in Hrun. injection Hrun as <- <-. frame_unchanged.
    + rewrite download_loop_data in Hrun.
      destruct (disk_fault w (length (io_log w))).
      * injection Hrun as <- <-.
        split; [intros; reflexivity
               |split; [intros Hs; exact Hs |split; [| repeat split]]].
        rewrite transfers_log. unfold transfers. simpl. lia.
      * cbv zeta in Hrun.
        destruct (download_loop temp rest _ _ _) as [w2 r2] eqn:Erest.
        apply IH in Erest as (Hother & Htemp & Htr & Henv).
        assert (w' = w2) as -> by (destruct r2; injection Hrun as <- _; reflexivity).
        split; [|split; [|split]].
        -- intros p Hp. rewrite Hother by exact Hp. simpl.
           apply lookup_alter_ne. congruence.
        -- intros Hsome. apply Htemp. simpl. rewrite lookup_alter_eq.
           apply fmap_is_Some. exact Hsome.
        -- rewrite Htr. unfold after_chunk. unfold transfers. simpl.
           rewrite !filter_app, !length_app. simpl. lia.
        -- eapply same_env_trans; [|exact Henv]. repeat split.
  - injection Hrun as <- <-. frame_unchanged.
Qed.

Lemma download_file_outcome destination resp w w' r :
  download_file destination resp w = (w', r) ->
  match r with
  | Raise _ =>
      files w' !! destination = files w !! destination /\
      (is_ok (file_size_of resp) = true ->
       open_error w (destination ++ ".part") = None ->
       is_Some (files w' !! (destination ++ ".part")) /\
       forall p, p <> destination ++ ".part" -> files w' !! p = files w !! p) /\
      (is_Some (open_error w (destination ++ ".part")) -> files w' = files w)
  | Ok d =>
      d = destination /\
      is_Some (files w' !! destination) /\
      files w' !! (destination ++ ".part") = None
  end.
Proof.
  intros Hrun. rewrite download_file_run in Hrun.
  destruct (file_size_of resp) as [n|e].
  2:{ injection Hrun as <- <-. split; [reflexivity|]. split; [discriminate|].
      reflexivity. }
  cbv zeta in Hrun.
  destruct (open_error w (destination ++ ".part")) as [e0|] eqn:Eopen.
  { injection Hrun as <- <-. split; [reflexivity|]. split; [discriminate|].
    reflexivity. }
  destruct (download_loop _ _ _ _ _) as [w2 r2] eqn:Eloop.
  apply download_loop_frame in Eloop as (Hother & Htemp & _ & _).
  pose proof (part_differs destination) as Hne.
  assert (Hpart : is_Some (files w2 !! (destination ++ ".part"))).
  { apply Htemp. simpl. rewrite lookup_insert_eq. eauto. }
  assert (Hrest : forall p, p <> destination ++ ".part" ->
                            files w2 !! p = files w !! p).
  { intros p Hp. rewrite Hother by exact Hp. simpl.
    apply lookup_insert_ne. congruence. }
  destruct r2 as [sizes|e].
  - destruct Hpart as [c Hc]. rewrite Hc in Hrun.
    injection Hrun as <- <-. simpl.
    split; [reflexivity|]. split.
    + rewrite lookup_insert_eq. eauto.
    + rewrite lookup_insert_ne by congruence. apply lookup_delete_eq.
  - injection Hrun as <- <-.
    split; [apply Hrest; congruence|]. split.
    + intros _ _. split; [exact Hpart | exact Hrest].
    + intros [e' He']. discriminate He'.
Qed.

Lemma download_file_transfers destination resp w w' r :
  download_file destination resp w = (w', r) -> transfers w' = transfers w.
Proof.
  rewrite download_file_run. destruct (file_size_of resp) as [n|e].
  - cbv zeta. destruct (open_error w _) as [e0|].
    { intros [= <- <-]. rewrite !transfers_log. simpl. lia. }
    destruct (download_loop _ _ _ _ _) as [w2 r2] eqn:Eloop.
    apply download_loop_frame in Eloop as (_ & _ & Htr & _).
    assert (Hstart : transfers w2 = transfers w).
    { rewrite Htr. unfold at_loop_start, transfers. simpl.
      rewrite !filter_app, !length_app. simpl. lia. }
    destruct r2 as [sizes|e].
    + destruct (files w2 !! _); intros [= <- <-]; rewrite transfers_log; simpl;
        unfold transfers in *; simpl; lia.
    + intros [= <- <-]. exact Hstart.
  - intros [= <- <-]. reflexivity.
Qed.

(** *** The adaptive loop against the loop with a fixed chunk size *)

Lemma loops_agree temp chunks cs t0 w v :
  same_disk w v ->
  same_disk (download_loop temp chunks cs t0 w).1 (fixed_loop temp chunks v).1 /\
  same_outcome (download_loop temp chunks cs t0 w).2 (fixed_loop temp chunks v).2.
Proof.
  revert cs t0 w v.
  induction chunks as [|[chunk|] rest IH]; intros cs t0 w v Hwv.
  - simpl. auto.
  - destruct chunk as [|b chunk].
    + destruct Hwv as (Hf & Hl & Hd & Ho). simpl. repeat split; assumption.
    + rewrite download_loop_data, fixed_loop_data.
      destruct Hwv as (Hf & Hl & Hd & Ho). rewrite Hd, Hl.
      destruct (disk_fault v (length (io_log v))).
      * simpl. unfold same_disk. simpl. rewrite Hl. repeat split; assumption.
      * cbv zeta.
        match goal with
        | |- context [download_loop temp rest ?c ?t ?x] =>
            match goal with
            | |- context [fixed_loop temp rest ?y] =>
                specialize (IH c t x y);
                destruct (download_loop temp rest c t x) as [w2 r2];
                destruct (fixed_loop temp rest y) as [v2 q2]
            end
        end.
        destruct IH as [Hd2 Ho2].
        { unfold same_disk, after_chunk. simpl. rewrite Hf, Hl.
          repeat split; assumption. }
        simpl in Hd2, Ho2.
        destruct r2, q2; simpl in *; try contradiction; auto.
  - simpl. auto.
Qed.

Lemma download_file_as_fixed destination resp w c :
  files (download_file destination resp w).1
    = files (download_fixed destination resp (set_clock c w)).1 /\
  (download_file destination resp w).2
    = (download_fixed destination resp (set_clock c w)).2.
Proof.
  rewrite download_file_run, download_fixed_run.
  destruct (file_size_of resp) as [n|e]; [|split; reflexivity].
  cbv zeta. change (open_error (set_clock c w)) with (open_error w).
  destruct (open_error w _) as [e0|]; [split; reflexivity|].
  match goal with
  | |- context [download_loop ?t ?cks ?s ?t0 ?x] =>
      match goal with
      | |- context [fixed_loop t cks ?y] =>
          pose proof (loops_agree t cks s t0 x y) as Hloops;
          destruct (download_loop t cks s t0 x) as [w2 r2];
          destruct (fixed_loop t cks y) as [v2 q2]
      end
  end.
  destruct Hloops as [(Hf & Hl & Hd & _) Ho].
  { unfold at_loop_start. simpl. rewrite Z.add_0_r. repeat split. }
  simpl in Hf, Hl, Hd, Ho.
  destruct r2, q2; simpl in Ho; try contradiction.
  - rewrite Hf.
    destruct (files v2 !! (destination ++ ".part")); simpl; rewrite ?Hf;
      split; reflexivity.
  - subst. simpl. rewrite Hf. split; reflexivity.
Qed.

(** C9. Whatever the response and whatever the clock shows (so whatever
    latencies are observed), [download_file] leaves the same files and
    returns the same result as [download_fixed], the transfer that reads
    with the fixed chunk size 8192 and never looks at the clock. Hence
    the files and the result of [download_file] do not depend on the
    clock, and they depend on the response only through its header and
    through the chunks it yields for the size 8192: the iterator is made
    once, with 8192, before the loop. *)
Theorem download_ignores_chunk_size_changes (destination : string)
    (resp : response) (w : world) (c : nat -> Q) :
  (files (download_file destination resp w).1
     = files (download_fixed destination resp (set_clock c w)).1 /\
   (download_file destination resp w).2
     = (download_fixed destination resp (set_clock c w)).2) /\
  (files (download_file destination resp (set_clock c w)).1
     = files (download_file destination resp w).1 /\
   (download_file destination resp (set_clock c w)).2
     = (download_file destination resp w).2) /\
  (forall resp' : response,
     content_length resp' = content_length resp ->
     iter_content resp' 8192 = iter_content resp 8192 ->
     download_file destination resp' w = download_file destination resp w).
Proof.
  split; [apply download_file_as_fixed|]. split.
  - destruct (download_file_as_fixed destination resp w c) as [H1 H2].
    destruct (download_file_as_fixed destination resp (set_clock c w) c) as [H3 H4].
    replace (set_clock c (set_clock c w)) with (set_clock c w) in H3, H4
      by reflexivity.
    split; congruence.
  - intros resp' Hlen Hiter. unfold download_file, file_size_of.
    rewrite Hlen, Hiter. reflexivity.
Qed.

Lemma download_ignores_chunk_size_changes_witness :
  (content_length Examples.resized_response
     = content_length Examples.complete_response /\
   iter_content Examples.resized_response 8192
     = iter_content Examples.complete_response 8192) /\
  download_file "f" Examples.resized_response Examples.cold
    = download_file "f" Examples.complete_response Examples.cold.
Proof.
  split; [split; reflexivity|].
  exact (proj2 (proj2 (download_ignores_chunk_size_changes "f"
                         Examples.complete_response Examples.cold
                         (Examples.clock_of [])))
           Examples.resized_response eq_refl eq_refl).
Defined.

Section Resolve.
Context `{Collaborators}.

Lemma isfile_present p w :
  is_Some (files w !! p) -> isfile p w = (log (IoStat p) w, Ok true).
Proof.
  intros Hp. unfold isfile. rewrite bool_decide_eq_true_2 by exact Hp. reflexivity.
Qed.

Lemma isfile_absent p w :
  files w !! p = None -> isfile p w = (log (IoStat p) w, Ok false).
Proof.
  intros Hp. unfold isfile. rewrite bool_decide_eq_false_2; [reflexivity|].
  rewrite Hp. apply is_Some_None.
Qed.

Lemma download_test_hit subject sign timeout w :
  is_Some (files w !! test_destination subject sign) ->
  download_test subject sign timeout w
    = (log (IoStat (test_destination subject sign)) w,
       Ok (test_destination subject sign)).
Proof.
  intros Hp. unfold download_test, test_destination in *.
  destruct (create_destination _ sign) as [[destination key] path].
  unfold bind at 1. rewrite isfile_present by exact Hp. reflexivity.
Qed.

Lemma download_train_hit subject sign timeout w :
  is_Some (files w !! train_matpath subject sign) ->
  download_train subject sign timeout w
    = (log (IoStat (train_matpath subject sign)) w,
       Ok (train_matpath subject sign)).
Proof.
  intros Hp. unfold download_train, train_matpath in *.
  destruct (create_destination _ sign) as [[base_path key] path].
  unfold bind at 1. rewrite isfile_present by exact Hp. reflexivity.
Qed.

Lemma download_test_fails subject sign timeout w w' e :
  download_test subject sign timeout w = (w', Raise e) ->
  files w' !! test_destination subject sign = None.
Proof.
  destruct (files w !! test_destination subject sign) as [c|] eqn:Hp.
  { rewrite download_test_hit by (rewrite Hp; eauto). discriminate. }
  unfold download_test, test_destination in *.
  destruct (create_destination _ sign) as [[destination key] path].
  unfold bind at 1. rewrite isfile_absent by exact Hp. cbn [negb].
  unfold bind at 1. unfold bind at 1. unfold requests_get. cbn [net log].
  destruct (net w _) as [|resp].
  - intros [= <- _]. exact Hp.
  - unfold bind at 1.
    destruct (download_file destination resp _) as [w2 [d|e2]] eqn:Efile;
      [discriminate|].
    intros [= <- _]. apply download_file_outcome in Efile as [Hdest _].
    rewrite Hdest. exact Hp.
Qed.

(** C5. When a transfer into a destination that does not exist yet has
    started (the length header was read and the temporary file was
    opened) and [download_file] then raises, at whichever chunk the
    stream or the disk fails, the destination still does not exist, the
    temporary file [destination + ".part"] is on disk, and no other
    file has changed. When the temporary file cannot even be opened, the
    transfer does not start: the destination does not exist and no file
    has changed at all. When [download_file] returns, it returns the
    destination, the destination exists and the temporary file is gone:
    the rename is the last step and happens on success only. Seen from
    [download_test], which starts the transfer only when the
    destination is not a file: however it fails, the destination does
    not exist afterwards. *)
Theorem interrupted_download_leaves_only_part (destination : string)
    (resp : response) (w w' : world) (r : result string) :
  files w !! destination = None ->
  is_ok (file_size_of resp) = true ->
  download_file destination resp w = (w', r) ->
  match r with
  | Raise _ =>
      files w' !! destination = None /\
      match open_error w (destination ++ ".part") with
      | None =>
          is_Some (files w' !! (destination ++ ".part")) /\
          (forall p, p <> destination ++ ".part" -> files w' !! p = files w !! p)
      | Some _ => files w' = files w
      end
  | Ok d =>
      d = destination /\
      is_Some (files w' !! destination) /\
      files w' !! (destination ++ ".part") = None
  end /\
  (forall subject sign timeout v v' e,
     download_test subject sign timeout v = (v', Raise e) ->
     files v' !! test_destination subject sign = None).
Proof.
  intros Habsent Hhead Hrun. split; [|apply download_test_fails].
  apply download_file_outcome in Hrun. destruct r as [d|e]; [exact Hrun|].
  destruct Hrun as (Hdest & Hpart & Hclosed).
  split; [rewrite Hdest; exact Habsent|].
  destruct (open_error w (destination ++ ".part")) as [e0|].
  - apply Hclosed. eauto.
  - apply Hpart; [exact Hhead | reflexivity].
Qed.

End Resolve.

Lemma interrupted_download_leaves_only_part_witness :
  files Examples.cold !! "f" = None /\
  is_ok (file_size_of Examples.broken_response) = true /\
  (download_file "f" Examples.broken_response Examples.cold).2
    = Raise RequestException /\
  files (download_file "f" Examples.broken_response Examples.cold).1 !! "f" = None /\
  is_Some
    (files (download_file "f" Examples.broken_response Examples.cold).1 !! "f.part").
Proof.
  assert (Ha : files Examples.cold !! "f" = None) by reflexivity.
  assert (Hh : is_ok (file_size_of Examples.broken_response) = true) by reflexivity.
  assert (Hr : (download_file "f" Examples.broken_response Examples.cold).2
               = Raise RequestException) by (vm_compute; reflexivity).
  destruct (download_file "f" Examples.broken_response Examples.cold)
    as [w' r] eqn:E.
  pose proof (interrupted_download_leaves_only_part (H := Examples.demo) "f"
                Examples.broken_response Examples.cold w' r Ha Hh E) as [Hfile _].
  simpl in Hr. subst r. cbn [open_error Examples.cold Examples.world_with] in Hfile.
  destruct Hfile as (H1 & H2 & _).
  split; [exact Ha|]. split; [exact Hh|]. split; [reflexivity|].
  split; [exact H1 | exact H2].
Defined.

(** *** Resolving twice *)

Section Twice.
Context `{Collaborators}.

Lemma download_file_ok destination resp w w' d :
  download_file destination resp w = (w', Ok d) ->
  d = destination /\ is_Some (files w' !! destination).
Proof.
  intros Hrun. apply download_file_outcome in Hrun as (Hd & Hsome & _). auto.
Qed.

Lemma download_test_miss subject sign timeout w w1 p :
  files w !! test_destination subject sign = None ->
  download_test subject sign timeout w = (w1, Ok p) ->
  p = test_destination subject sign /\
  is_Some (files w1 !! p) /\
  transfers w1 = S (transfers w).
Proof.
  intros Hp. unfold download_test, test_destination in *.
  destruct (create_destination _ sign) as [[destination key] path].
  unfold bind at 1. rewrite isfile_absent by exact Hp. cbn [negb].
  unfold bind at 1. unfold bind at 1. unfold requests_get.
  cbn [net log].
  destruct (net w _) as [|resp]; [discriminate|].
  unfold bind at 1.
  destruct (download_file destination resp _) as [w2 [d|e]] eqn:Efile;
    [|discriminate].
  intros [= <- <-].
  pose proof (download_file_transfers _ _ _ _ _ Efile) as Htr.
  apply download_file_ok in Efile as [_ Hsome].
  split; [reflexivity|]. split; [exact Hsome|].
  rewrite Htr, !transfers_log. simpl. lia.
Qed.

Lemma extractall_transfers zippath base w w' r :
  extractall zippath base w = (w', r) -> transfers w' = transfers w.
Proof.
  unfold extractall. destruct (files w !! zippath) as [c|].
  - destruct (unzip c); intros [= <- <-]; rewrite transfers_log; simpl;
      unfold transfers; simpl; lia.
  - intros [= <- <-]. rewrite transfers_log. simpl. lia.
Qed.

Lemma remove_transfers p w w' r :
  remove p w = (w', r) -> transfers w' = transfers w.
Proof.
  unfold remove. destruct (files w !! p); intros [= <- <-];
    rewrite transfers_log; simpl; unfold transfers; simpl; lia.
Qed.

Lemma download_train_miss subject sign timeout w w1 p :
  files w !! train_matpath subject sign = None ->
  files w !! train_zippath subject sign = None ->
  download_train subject sign timeout w = (w1, Ok p) ->
  p = train_matpath subject sign /\ transfers w1 = S (transfers w).
Proof.
  intros Hmat Hzip. unfold download_train, train_matpath, train_zippath in *.
  destruct (create_destination _ sign) as [[base_path key] path].
  unfold bind at 1. rewrite isfile_absent by exact Hmat. cbn [negb].
  unfold bind at 1. unfold bind at 1.
  rewrite isfile_absent by exact Hzip. cbn [negb].
  unfold bind at 1. unfold bind at 1. unfold requests_get. cbn [net log].
  destruct (net w _) as [|resp]; [discriminate|].
  destruct (download_file _ resp _) as [w2 [d|e]] eqn:Efile; [|discriminate].
  apply download_file_transfers in Efile.
  unfold bind at 1.
  destruct (extractall d base_path w2) as [w3 [u|e]] eqn:Eext; [|discriminate].
  apply extractall_transfers in Eext.
  destruct (remove d w3) as [w4 [u'|e]] eqn:Erm; [|discriminate].
  apply remove_transfers in Erm.
  intros [= <- <-]. split; [reflexivity|].
  rewrite Erm, Eext, Efile, !transfers_log. simpl. lia.
Qed.


End Twice.



End DownloadFacts.

(** ** Ma2020: annotations *)

Module Ma2020Facts.
Import PyFacts Mne Ma2020 More.

Lemma truncate_eqb (n : nat) (d s : string) :
  (String.length s < n)%nat -> String.eqb (truncate n d) s = String.eqb d s.
Proof.
  revert d s. induction n as [|n IH]; intros d s Hs; [lia|].
  destruct d as [|c d]; [reflexivity|].
  destruct s as [|c' s]; [reflexivity|].
  simpl. destruct (Ascii.eqb c c'); [|reflexivity].
  apply IH. simpl in Hs. lia.
Qed.

Lemma replace_twice (descs : list string) :
  replace_eq "2" "right_elbow" (replace_eq "1" "right_hand" (astype_U11 descs))
  = map relabelled descs.
Proof.
  unfold replace_eq, astype_U11. rewrite !map_map. apply map_ext. intros d.
  unfold relabelled.
  rewrite (truncate_eqb 11 d "1") by (simpl; lia).
  destruct (String.eqb d "1"); [reflexivity|].
  rewrite (truncate_eqb 11 d "2") by (simpl; lia).
  reflexivity.
Qed.

Lemma set_descriptions_fields (stim : list string) (anns : list annotation) :
  length stim = length anns ->
  map description (set_descriptions stim anns) = stim /\
  map onset (set_descriptions stim anns) = map onset anns /\
  map duration (set_descriptions stim anns) = map duration anns.
Proof.
  unfold set_descriptions. revert stim.
  induction anns as [|a anns IH]; intros [|d stim] Hlen; simpl in *; try lia;
    [auto|].
  destruct (IH stim ltac:(lia)) as (H1 & H2 & H3).
  rewrite H1, H2, H3. auto.
Qed.

Lemma set_descriptions_map (f : string -> string) (anns : list annotation) :
  set_descriptions (map f (map description anns)) anns
  = map (fun a => mk_annotation (onset a) (duration a) (f (description a))) anns.
Proof.
  unfold set_descriptions. induction anns as [|a anns IH]; simpl; [reflexivity|].
  rewrite IH. reflexivity.
Qed.

Lemma rest_annotations (sfreq : Q) :
  annotations_from_events (rest_events sfreq) sfreq [(3, "rest")]
  = map (rest_annotation sfreq) (seq 0 75).
Proof.
  unfold annotations_from_events, rest_events.
  generalize (seq 0 75). intros l. induction l as [|k l IH]; [reflexivity|].
  cbn [map omap list_omap]. simpl. rewrite <- IH. reflexivity.
Qed.

(** *** The channels *)

Lemma filter_guarded (names rm : list string) (l : list (string * list Z)) :
  (forall c, c ∈ l -> c.1 ∈ names) ->
  filter (fun c => c.1 ∉ filter (fun e => e ∈ names) rm) l
  = filter (fun c => c.1 ∉ rm) l.
Proof.
  induction l as [|c l IH]; intros Hin; [reflexivity|].
  assert (Hc : c.1 ∈ names) by (apply Hin; left).
  assert (Hl : forall c', c' ∈ l -> c'.1 ∈ names)
    by (intros c' H'; apply Hin; right; exact H').
  rewrite !filter_cons, (IH Hl).
  destruct (decide (c.1 ∉ filter (fun e => e ∈ names) rm)) as [H1|H1];
    destruct (decide (c.1 ∉ rm)) as [H2|H2]; try reflexivity; exfalso.
  - apply H1. apply list_elem_of_filter. split; [exact Hc|].
    destruct (decide (c.1 ∈ rm)); [assumption | contradiction].
  - apply H1. intros H3. apply list_elem_of_filter in H3 as [_ H3]. contradiction.
Qed.

(** The list of line 67 holds channels of the recording only, so
    [drop_channels] never refuses a name: it fails only when nothing is
    left. *)
Lemma drop_guarded (raw : Raw) :
  drop_channels (filter (fun emg => emg ∈ raw_ch_names raw) remove_chs) raw
  = match filter (fun c => c.1 ∉ remove_chs) (channels raw) with
    | [] => Raise ValueError
    | c :: kept => Ok (mk_Raw (info_sfreq raw) (c :: kept) (annotations raw))
    end.
Proof.
  unfold drop_channels. rewrite bool_decide_eq_true_2.
  2:{ apply Forall_forall. intros name Hname.
      apply list_elem_of_filter in Hname as [Hname _]. exact Hname. }
  cbn [negb]. rewrite filter_guarded.
  2:{ intros c Hc. unfold raw_ch_names. apply list_elem_of_fmap. eauto. }
  destruct (filter _ (channels raw)); reflexivity.
Qed.

Lemma relabel_run (raw : Raw) :
  relabel raw =
    match filter (fun c => c.1 ∉ remove_chs) (channels raw) with
    | [] => Raise ValueError
    | c :: kept =>
        match annotations raw with
        | [] =>
            set_annotations (mk_Raw (info_sfreq raw) (c :: kept) [])
              (map (rest_annotation (info_sfreq raw)) (seq 0 75))
        | a :: anns =>
            Ok (mk_Raw (info_sfreq raw) (c :: kept)
                  (map relabel_annotation (a :: anns)))
        end
    end.
Proof.
  unfold relabel. cbv zeta. fold remove_chs. rewrite drop_guarded.
  destruct (filter _ (channels raw)) as [|c kept]; [reflexivity|].
  cbn [rbind annotations info_sfreq channels].
  destruct (annotations raw) as [|a anns] eqn:Ea.
  - cbn [negb Nat.eqb length map astype_U11]. rewrite rest_annotations.
    reflexivity.
  - assert (Hlen : negb (Nat.eqb
                     (length (astype_U11 (map description (a :: anns)))) 0) = true)
      by reflexivity.
    rewrite Hlen, replace_twice, set_descriptions_map. reflexivity.
Qed.

Lemma relabel_annotation_fields (anns : list annotation) :
  map description (map relabel_annotation anns)
    = map relabelled (map description anns) /\
  map onset (map relabel_annotation anns) = map onset anns /\
  map duration (map relabel_annotation anns) = map duration anns.
Proof. rewrite !map_map. repeat split. Qed.

(** *** The rest train and the span of the recording *)

Lemma rate_not_zero (sfreq : Q) : (0 < sfreq)%Q -> ~ (sfreq == 0)%Q.
Proof. intros Hpos E. rewrite E in Hpos. apply (Qlt_irrefl 0). exact Hpos. Qed.

Lemma rest_onset (sfreq : Q) (k : nat) :
  (0 < sfreq)%Q ->
  (onset (rest_annotation sfreq k) == inject_Z (Z.of_nat k) * (425 # 100))%Q.
Proof. intros Hpos. simpl. field. apply rate_not_zero. exact Hpos. Qed.

Lemma rest_onset_nonneg (sfreq : Q) (k : nat) :
  (0 < sfreq)%Q -> (0 <= onset (rest_annotation sfreq k))%Q.
Proof.
  intros Hpos. rewrite rest_onset by exact Hpos.
  apply Qmult_le_0_compat; [|discriminate].
  change 0%Q with (inject_Z 0). rewrite <- Zle_Qle. lia.
Qed.

Lemma span_eq (sfreq : Q) (last : nat) :
  (0 < sfreq)%Q ->
  (inject_Z (Z.of_nat last) / sfreq + 1 / sfreq
   == inject_Z (Z.of_nat (S last)) / sfreq)%Q.
Proof.
  intros Hpos. rewrite Nat2Z.inj_succ. unfold Z.succ. rewrite inject_Z_plus.
  field. apply rate_not_zero. exact Hpos.
Qed.

Lemma span_nonneg (sfreq : Q) (n : nat) :
  (0 < sfreq)%Q -> (0 <= inject_Z (Z.of_nat n) / sfreq)%Q.
Proof.
  intros Hpos. apply Qle_shift_div_l; [exact Hpos|]. rewrite Qmult_0_l.
  change 0%Q with (inject_Z 0). rewrite <- Zle_Qle. lia.
Qed.

(** Cropping the rest train to [0, tmax] keeps the annotations that
    begin at [tmax] at the latest, as they are. *)
Lemma crop_rest (sfreq tmax : Q) (ks : list nat) :
  (0 < sfreq)%Q -> (0 <= tmax)%Q ->
  crop 0 tmax (map (rest_annotation sfreq) ks)
  = Ok (map (rest_annotation sfreq)
          (filter (fun k => Qle_bool (onset (rest_annotation sfreq k)) tmax = true)
             ks)).
Proof.
  intros Hpos Htmax. unfold crop.
  destruct ks as [|k0 ks0] eqn:Eks; [reflexivity|]. rewrite <- Eks. clear Eks.
  cbn [map]. destruct (map (rest_annotation sfreq) ks) eqn:Emap.
  { destruct ks; [reflexivity | discriminate Emap]. }
  rewrite <- Emap. clear Emap.
  replace (Qle_bool 0 tmax) with true by (symmetry; apply Qle_bool_iff; exact Htmax).
  cbn [negb]. f_equal.
  induction ks as [|k ks IH]; [reflexivity|].
  cbn [map omap list_omap]. rewrite filter_cons.
  assert (Hnn : (0 <= onset (rest_annotation sfreq k))%Q)
    by (apply rest_onset_nonneg; exact Hpos).
  assert (Hoff : (onset (rest_annotation sfreq k)
                  + duration (rest_annotation sfreq k)
                  == onset (rest_annotation sfreq k))%Q)
    by (cbn [duration rest_annotation]; apply Qplus_0_r).
  cbv zeta.
  replace (Qle_bool 0 (onset (rest_annotation sfreq k)
                       + duration (rest_annotation sfreq k)))
    with true by (symmetry; apply Qle_bool_iff; rewrite Hoff; exact Hnn).
  replace (Qle_bool 0 (onset (rest_annotation sfreq k)))
    with true by (symmetry; apply Qle_bool_iff; exact Hnn).
  destruct (Qle_bool (onset (rest_annotation sfreq k)) tmax) eqn:Ek.
  - assert (Hin : Qle_bool (onset (rest_annotation sfreq k)
                            + duration (rest_annotation sfreq k)) tmax = true).
    { apply Qle_bool_iff. rewrite Hoff. apply Qle_bool_iff. exact Ek. }
    rewrite Hin. cbn [negb orb]. rewrite decide_True by reflexivity.
    cbn [map]. rewrite <- IH. reflexivity.
  - cbn [negb orb]. rewrite decide_False by discriminate. exact IH.
Qed.

(** A condition that passes from k + 1 to k holds on a first part of
    0, 1, ..., n - 1. *)
Lemma downward (P : nat -> Prop) (n k : nat) :
  (forall j, P (S j) -> P j) -> (k <= n)%nat -> P n -> P k.
Proof.
  intros Hstep Hk Hn. induction Hk as [|n Hk IH]; [exact Hn|].
  apply IH. apply Hstep. exact Hn.
Qed.

Lemma filter_seq_prefix (P : nat -> Prop) `{!forall k, Decision (P k)} (n : nat) :
  (forall j, P (S j) -> P j) ->
  exists m, (m <= n)%nat /\ filter P (seq 0 n) = seq 0 m /\
            forall k, (k < n)%nat -> (k < m)%nat <-> P k.
Proof.
  intros Hstep. induction n as [|n (m & Hm & Hfilter & Hiff)].
  - exists 0%nat. split; [lia|]. split; [reflexivity|]. intros k Hk. lia.
  - rewrite seq_S, filter_app, Hfilter. cbn [Nat.add].
    rewrite filter_cons, filter_nil. destruct (decide (P n)) as [Hn|Hn].
    + assert (m = n) as ->.
      { destruct (decide (m = n)) as [|Hne]; [assumption|].
        assert (Hlt : (m < n)%nat) by lia.
        assert (Hpm : P m) by (apply (downward P n m Hstep); [lia | exact Hn]).
        apply (Hiff m Hlt) in Hpm. lia. }
      exists (S n). split; [lia|]. split; [rewrite seq_S; reflexivity|].
      intros k Hk. split; [|lia]. intros _.
      apply (downward P n k Hstep); [lia | exact Hn].
    + exists m. split; [lia|]. split; [apply app_nil_r|].
      intros k Hk. destruct (decide (k = n)) as [->|Hne].
      * split; [lia | contradiction].
      * apply Hiff. lia.
Qed.

(** The channels and the sampling rate of a run that lines 65-80
    return. *)
Lemma relabel_shape (raw raw' : Raw) :
  relabel raw = Ok raw' ->
  exists c kept,
    filter (fun c => c.1 ∉ remove_chs) (channels raw) = c :: kept /\
    channels raw' = c :: kept /\
    info_sfreq raw' = info_sfreq raw.
Proof.
  intros Hrun. rewrite relabel_run in Hrun.
  destruct (filter (fun c => c.1 ∉ remove_chs) (channels raw)) as [|c kept];
    [discriminate|].
  exists c, kept. split; [reflexivity|].
  destruct (annotations raw) as [|a anns].
  - unfold set_annotations in Hrun. cbn [info_sfreq channels] in Hrun.
    destruct (Qeq_bool (info_sfreq raw) 0); [discriminate|].
    destruct (raw_n_times _); [discriminate|]. cbv zeta in Hrun.
    destruct (crop _ _ _); [|discriminate]. injection Hrun as <-. auto.
  - injection Hrun as <-. auto.
Qed.

(** The annotations of a run that lines 65-80 return: the relabelled
    annotations of the file, or a first part of the rest train. *)
Lemma annotations_of_relabel (raw raw' : Raw) :
  (0 < info_sfreq raw)%Q ->
  relabel raw = Ok raw' ->
  match annotations raw with
  | [] =>
      exists m : nat, (1 <= m <= 75)%nat /\
        annotations raw' = map (rest_annotation (info_sfreq raw)) (seq 0 m)
  | a :: anns => annotations raw' = map relabel_annotation (a :: anns)
  end.
Proof.
  intros Hpos Hrun. rewrite relabel_run in Hrun.
  destruct (filter (fun c => c.1 ∉ remove_chs) (channels raw)) as [|c kept];
    [discriminate|].
  destruct (annotations raw) as [|a anns]; [|injection Hrun as <-; reflexivity].
  unfold set_annotations in Hrun. cbn [info_sfreq raw_n_times channels] in Hrun.
  set (sfreq := info_sfreq raw) in *.
  destruct (Qeq_bool sfreq 0); [discriminate|].
  destruct (length c.2) as [|last]; [discriminate|]. cbv zeta in Hrun.
  assert (Hspan : (inject_Z (Z.of_nat last) / sfreq + 1 / sfreq
                   == inject_Z (Z.of_nat (S last)) / sfreq)%Q)
    by (apply span_eq; exact Hpos).
  assert (Htmax : (0 <= inject_Z (Z.of_nat last) / sfreq + 1 / sfreq)%Q)
    by (rewrite Hspan; apply span_nonneg; exact Hpos).
  rewrite (crop_rest sfreq _ (seq 0 75) Hpos Htmax) in Hrun.
  cbn [rbind] in Hrun.
  set (P := fun k : nat =>
              Qle_bool (onset (rest_annotation sfreq k))
                (inject_Z (Z.of_nat last) / sfreq + 1 / sfreq) = true).
  change (filter _ (seq 0 75)) with (filter P (seq 0 75)) in Hrun.
  assert (HP : forall k : nat,
            P k <-> (inject_Z (Z.of_nat k) * (425 # 100)
                     <= inject_Z (Z.of_nat last) / sfreq + 1 / sfreq)%Q).
  { intros k. unfold P. rewrite Qle_bool_iff.
    rewrite (rest_onset sfreq k Hpos). reflexivity. }
  destruct (filter_seq_prefix P 75) as (m & Hm & Hfilter & Hiff).
  { intros j. rewrite !HP. intros Hj. eapply Qle_trans; [|exact Hj].
    apply Qmult_le_compat_r; [|discriminate].
    rewrite <- Zle_Qle. lia. }
  assert (H0 : (0 < m)%nat).
  { apply (Hiff 0%nat); [lia|]. apply HP. rewrite Qmult_0_l. exact Htmax. }
  rewrite Hfilter in Hrun. injection Hrun as <-.
  exists m. split; [lia | reflexivity].
Qed.

(** C8, as the code has it. Stated for a run on which lines 65-80
    return. For a run whose file carries annotations, the descriptions
    are relabelled by the fixed table: "1" becomes "right_hand", "2"
    becomes "right_elbow" (any other description is kept, cut to eleven
    characters), and onsets and durations are kept. For a run whose
    file carries no annotation (and has a positive sampling rate), 75
    events are made, the k-th (k = 0..74) at sample k * sfreq * 4.25
    with code 3; they become annotations described "rest", without
    duration, the k-th at k * 4.25 seconds, and [set_annotations] keeps
    those that begin within the recording: the first m of them, where
    k < m exactly when k * 4.25 is at most the length of the recording
    in seconds. The first is always kept, and all 75 are kept when the
    recording lasts 314.5 seconds or more. *)
Theorem annotations_relabelled_or_rest (raw raw' : Raw) :
  relabel raw = Ok raw' ->
  (annotations raw <> [] ->
     map description (annotations raw')
       = map (fun d => if String.eqb d "1" then "right_hand"
                       else if String.eqb d "2" then "right_elbow"
                       else truncate 11 d)
             (map description (annotations raw)) /\
     map onset (annotations raw') = map onset (annotations raw) /\
     map duration (annotations raw') = map duration (annotations raw)) /\
  (annotations raw = [] -> (0 < info_sfreq raw)%Q ->
     let sfreq := info_sfreq raw in
     let seconds := (inject_Z (Z.of_nat (raw_n_times raw')) / sfreq)%Q in
     (forall k : nat, (k < 75)%nat ->
        rest_events sfreq !! k
          = Some ((inject_Z (Z.of_nat k) * sfreq * (425 # 100))%Q, 0, 3)) /\
     exists m : nat,
       (1 <= m <= 75)%nat /\
       annotations raw' = map (rest_annotation sfreq) (seq 0 m) /\
       (forall k : nat, (k < 75)%nat ->
          (k < m)%nat <-> (inject_Z (Z.of_nat k) * (425 # 100) <= seconds)%Q) /\
       ((3145 # 10 <= seconds)%Q -> m = 75%nat) /\
       (forall k : nat, (k < m)%nat ->
          exists a,
            annotations raw' !! k = Some a /\
            description a = "rest" /\
            duration a = 0%Q /\
            onset a = ((inject_Z (Z.of_nat k) * sfreq * (425 # 100)) / sfreq)%Q /\
            (onset a == inject_Z (Z.of_nat k) * (425 # 100))%Q)).
Proof.
  intros Hrun. rewrite relabel_run in Hrun.
  destruct (filter (fun c => c.1 ∉ remove_chs) (channels raw)) as [|c kept];
    [discriminate|].
  split.
  - intros Hne. destruct (annotations raw) as [|a anns]; [contradiction|].
    injection Hrun as <-.
    exact (relabel_annotation_fields (a :: anns)).
  - intros Hnone Hpos sfreq seconds. rewrite Hnone in Hrun.
    unfold set_annotations in Hrun. cbn [info_sfreq raw_n_times channels] in Hrun.
    fold sfreq in Hrun.
    replace (Qeq_bool sfreq 0) with false in Hrun.
    2:{ symmetry. apply not_true_is_false. intros E. apply Qeq_bool_iff in E.
        apply (rate_not_zero sfreq Hpos). exact E. }
    destruct (length c.2) as [|last] eqn:Elen; [discriminate|].
    cbv zeta in Hrun.
    assert (Hspan : (inject_Z (Z.of_nat last) / sfreq + 1 / sfreq
                     == inject_Z (Z.of_nat (S last)) / sfreq)%Q)
      by (apply span_eq; exact Hpos).
    rewrite crop_rest in Hrun.
    2:{ exact Hpos. }
    2:{ rewrite Hspan. apply span_nonneg. exact Hpos. }
    cbn [rbind] in Hrun.
    set (P := fun k : nat =>
                Qle_bool (onset (rest_annotation sfreq k))
                  (inject_Z (Z.of_nat last) / sfreq + 1 / sfreq) = true).
    change (filter _ (seq 0 75)) with (filter P (seq 0 75)) in Hrun.
    assert (Hsec : seconds = (inject_Z (Z.of_nat (S last)) / sfreq)%Q).
    { unfold seconds. injection Hrun as <-. cbn [raw_n_times channels].
      rewrite Elen. reflexivity. }
    split.
    { intros k Hk. unfold rest_events.
      rewrite list_lookup_fmap, lookup_seq_lt by exact Hk. reflexivity. }
    assert (HP : forall k : nat,
              P k <-> (inject_Z (Z.of_nat k) * (425 # 100) <= seconds)%Q).
    { intros k. unfold P. rewrite Qle_bool_iff, Hsec, Hspan.
      rewrite (rest_onset sfreq k Hpos). reflexivity. }
    destruct (filter_seq_prefix P 75) as (m & Hm & Hfilter & Hiff).
    { intros j. rewrite !HP. intros Hj. eapply Qle_trans; [|exact Hj].
      apply Qmult_le_compat_r; [|discriminate].
      rewrite <- Zle_Qle. lia. }
    assert (H0 : (0 < m)%nat).
    { apply (Hiff 0%nat); [lia|]. apply HP. rewrite Qmult_0_l, Hsec.
      apply span_nonneg. exact Hpos. }
    rewrite Hfilter in Hrun. injection Hrun as <-.
    exists m. split; [lia|]. cbn [annotations].
    split; [reflexivity|].
    split; [intros k Hk; rewrite (Hiff k Hk); apply HP|].
    split.
    { intros Hlong. destruct (decide (m = 75%nat)) as [|Hne]; [assumption|].
      assert (Hlt : (74 < m)%nat); [|lia].
      apply (Hiff 74%nat); [lia|]. apply HP.
      eapply Qle_trans; [|exact Hlong]. apply Qle_bool_iff. reflexivity. }
    intros k Hk. exists (rest_annotation sfreq k).
    split; [rewrite list_lookup_fmap, lookup_seq_lt by exact Hk; reflexivity|].
    repeat split. apply rest_onset. exact Hpos.
Qed.

Lemma annotations_relabelled_or_rest_witness :
  (exists raw',
     relabel Examples.small_raw = Ok raw' /\
     annotations Examples.small_raw <> [] /\
     map description (annotations raw') = ["right_hand"; "right_elbow"] /\
     map onset (annotations raw') = [1 # 1000; 2 # 1000]%Q) /\
  (exists raw',
     relabel long_rest = Ok raw' /\
     annotations long_rest = [] /\ (0 < info_sfreq long_rest)%Q /\
     length (annotations raw') = 75%nat).
Proof.
  split.
  - assert (Hok : is_ok (relabel Examples.small_raw) = true) by reflexivity.
    destruct (relabel Examples.small_raw) as [raw'|e] eqn:E; [|discriminate Hok].
    assert (Hne : annotations Examples.small_raw <> []) by discriminate.
    destruct (proj1 (annotations_relabelled_or_rest Examples.small_raw raw' E) Hne)
      as (Hd & Ho & _).
    exists raw'. split; [reflexivity|]. split; [exact Hne|].
    split; [exact Hd | exact Ho].
  - assert (Hn : match relabel long_rest with
                 | Ok r => raw_n_times r
                 | Raise _ => 0%nat
                 end = 315%nat) by (vm_compute; reflexivity).
    destruct (relabel long_rest) as [raw'|e] eqn:E; [|discriminate Hn].
    assert (Hpos : (0 < info_sfreq long_rest)%Q) by reflexivity.
    destruct (proj2 (annotations_relabelled_or_rest long_rest raw' E) eq_refl Hpos)
      as (_ & m & _ & Hanns & _ & Hlong & _).
    exists raw'. split; [reflexivity|]. split; [reflexivity|]. split; [exact Hpos|].
    rewrite Hanns, length_map, length_seq. apply Hlong. rewrite Hn.
    apply Qle_bool_iff. reflexivity.
Defined.

(** C8, counterexample. A run of three samples at 1000 Hz without
    annotations: lines 76-80 return, and the recording carries one
    annotation, the one at 0 s, not 75: the other 74 begin after the
    end of the recording and [set_annotations] does not keep them. *)
Lemma rest_train_counterexample :
  annotations short_rest = [] /\
  match relabel short_rest with
  | Ok raw' => Some (map description (annotations raw'), map onset (annotations raw'))
  | Raise _ => None
  end = Some (["rest"], [((inject_Z 0 * (1000 # 1) * (425 # 100)) / (1000 # 1))%Q]) /\
  match relabel short_rest with
  | Ok raw' => length (annotations raw')
  | Raise _ => 0%nat
  end <> 75%nat.
Proof.
  split; [reflexivity|]. split; [vm_compute; reflexivity|].
  vm_compute. discriminate.
Qed.

End Ma2020Facts.

(** ** Subjects and the shape of the output *)

Module OutputFacts.
Import PyFacts.

Lemma elem_of_range (z : Z) (a n : nat) :
  z ∈ map Z.of_nat (seq a n) <-> Z.of_nat a <= z < Z.of_nat a + Z.of_nat n.
Proof.
  rewrite list_elem_of_fmap. split.
  - intros (k & -> & Hk). apply elem_of_seq in Hk. lia.
  - intros Hz. exists (Z.to_nat z). split; [lia|]. apply elem_of_seq. lia.
Qed.

Lemma lift_run {A} (r : result A) (w w' : world) (r' : result A) :
  lift r w = (w', r') -> w' = w /\ r' = r.
Proof. unfold lift. intros [= <- <-]. auto. Qed.

Lemma bind_ok {A B} (m : io A) (k : A -> io B) (w w' : world) (b : B) :
  bind m k w = (w', Ok b) ->
  exists w1 a, m w = (w1, Ok a) /\ k a w1 = (w', Ok b).
Proof. unfold bind. destruct (m w) as [w1 [a|e]]; [eauto | discriminate]. Qed.

Section Subjects.
Context `{Collaborators}.

(** C7. For a subject below 1 or above 5, [Dataset4a.data_path] raises
    ValueError and leaves the world as it was: nothing was probed,
    requested, read or written, and the log of operations is
    unchanged. [_get_single_subject_data], its caller, raises the same
    error in the same world: the error is passed on as it is, and
    nothing is tried again. The same holds for Ma2020 and a subject
    below 1 or above 25. *)
Theorem invalid_subject_raises_before_io (subject : Z) (w : world) :
  (subject < 1 \/ 5 < subject ->
     Dataset4a.data_path subject w = (w, Raise ValueError) /\
     Dataset4a._get_single_subject_data subject w = (w, Raise ValueError)) /\
  (subject < 1 \/ 25 < subject ->
     Ma2020.data_path subject w = (w, Raise ValueError) /\
     Ma2020._get_single_subject_data subject w = (w, Raise ValueError)).
Proof.
  split; intros Hout.
  - assert (Hpath : Dataset4a.data_path subject w = (w, Raise ValueError)).
    { unfold Dataset4a.data_path. rewrite bool_decide_eq_false_2; [reflexivity|].
      unfold Dataset4a.subject_list. rewrite elem_of_range. lia. }
    split; [exact Hpath|].
    unfold Dataset4a._get_single_subject_data, bind. rewrite Hpath. reflexivity.
  - assert (Hpath : Ma2020.data_path subject w = (w, Raise ValueError)).
    { unfold Ma2020.data_path. rewrite bool_decide_eq_false_2; [reflexivity|].
      unfold Ma2020.subject_list. rewrite elem_of_range. lia. }
    split; [exact Hpath|].
    unfold Ma2020._get_single_subject_data, bind. rewrite Hpath. reflexivity.
Qed.

Lemma load_runs_dom file_paths runs session w w' m :
  Ma2020.load_runs file_paths runs session w = (w', Ok m) ->
  dom m = dom session ∪ list_to_set (map (fun run => "run_" ++ str_of_Z run) runs).
Proof.
  revert session w. induction runs as [|run runs IH]; intros session w Hrun.
  - injection Hrun as _ <-. simpl. rewrite (right_id_L ∅ (∪)). reflexivity.
  - cbn [Ma2020.load_runs] in Hrun.
    apply bind_ok in Hrun as (w1 & path & _ & Hrun).
    apply bind_ok in Hrun as (w2 & raw & _ & Hrun).
    apply bind_ok in Hrun as (w3 & raw' & _ & Hrun).
    apply IH in Hrun. rewrite Hrun, dom_insert_L. simpl.
    rewrite (comm_L (∪) {[ "run_" ++ str_of_Z run ]} (dom session)),
      <- (assoc_L (∪)).
    reflexivity.
Qed.

(** C10. Whenever [Dataset4a._get_single_subject_data] returns, its
    result has the single key "session_1", whose value has exactly the
    keys "train" and "test": one session, although the constructor
    declares [sessions_per_subject = 4]. Whenever
    [Ma2020._get_single_subject_data] returns, its result has the
    single key "session_1", whose value has exactly the nineteen keys
    "run_1" to "run_19". Both return only for a valid subject. *)
Theorem output_has_one_session (subject : Z) (w w' : world) :
  (forall s : Dataset4a.sessions,
     Dataset4a._get_single_subject_data subject w = (w', Ok s) ->
     dom s = {[ "session_1" ]} /\
     (exists m, s !! "session_1" = Some m /\ dom m = {[ "train"; "test" ]}) /\
     size (dom s) = 1%nat /\
     Dataset4a.sessions_per_subject = 4) /\
  (forall s : Ma2020.sessions,
     Ma2020._get_single_subject_data subject w = (w', Ok s) ->
     dom s = {[ "session_1" ]} /\
     exists m,
       s !! "session_1" = Some m /\
       dom m = list_to_set
                 (map (fun run => "run_" ++ str_of_Z (Z.of_nat run)) (seq 1 19)) /\
       size (dom m) = 19%nat).
Proof.
  split.
  - intros s Hrun. unfold Dataset4a._get_single_subject_data in Hrun.
    apply bind_ok in Hrun as (w1 & paths & _ & Hrun).
    apply bind_ok in Hrun as (w2 & train_path & _ & Hrun).
    apply bind_ok in Hrun as (w3 & test_path & _ & Hrun).
    apply bind_ok in Hrun as (w4 & train_data & _ & Hrun).
    apply bind_ok in Hrun as (w5 & test_data & _ & Hrun).
    apply lift_run in Hrun as [_ Hs]. symmetry in Hs.
    unfold Dataset4a.assemble in Hs. rbind_inv Hs.
    injection Hs as <-.
    match goal with
    | |- dom ?s = _ /\ _ =>
        assert (Hdom : dom s = {[ "session_1" ]}) by apply dom_singleton_L
    end.
    split; [exact Hdom|]. split.
    + eexists. split; [apply lookup_singleton_eq|].
      rewrite dom_insert_L. f_equal.
    + split; [|reflexivity]. rewrite Hdom. apply size_singleton.
  - intros s Hrun. unfold Ma2020._get_single_subject_data in Hrun.
    apply bind_ok in Hrun as (w1 & paths & _ & Hrun).
    apply bind_ok in Hrun as (w2 & session & Hload & Hrun).
    injection Hrun as _ <-.
    split; [apply dom_singleton_L|].
    exists session. split; [apply lookup_singleton_eq|].
    apply load_runs_dom in Hload.
    rewrite dom_empty_L, (left_id_L ∅ (∪)) in Hload.
    rewrite map_map in Hload.
    split; [exact Hload|]. rewrite Hload. vm_compute. reflexivity.
Qed.

End Subjects.

Lemma invalid_subject_raises_before_io_witness :
  (0 < 1 \/ 5 < 0) /\
  Dataset4a.data_path (H := Examples.demo) 0 Examples.cold
    = (Examples.cold, Raise ValueError) /\
  (26 < 1 \/ 25 < 26) /\
  Ma2020._get_single_subject_data (H := Examples.demo) 26 Examples.cold
    = (Examples.cold, Raise ValueError).
Proof.
  assert (H4a : 0 < 1 \/ 5 < 0) by (left; lia).
  assert (Hma : 26 < 1 \/ 25 < 26) by (right; lia).
  split; [exact H4a|]. split.
  - exact (proj1 (proj1 (invalid_subject_raises_before_io (H := Examples.demo)
                           0 Examples.cold) H4a)).
  - split; [exact Hma|].
    exact (proj2 (proj2 (invalid_subject_raises_before_io (H := Examples.demo)
                           26 Examples.cold) Hma)).
Defined.

Lemma output_has_one_session_witness :
  (exists s,
     (Dataset4a._get_single_subject_data (H := Examples.demo) 1 Examples.cached_4a).2
       = Ok s /\
     dom s = {[ "session_1" ]} /\
     exists m, s !! "session_1" = Some m /\ dom m = {[ "train"; "test" ]}) /\
  (exists s,
     (Ma2020._get_single_subject_data (H := Examples.demo) 7 Examples.on_disk_ma2020).2
       = Ok s /\
     dom s = {[ "session_1" ]} /\
     exists m, s !! "session_1" = Some m /\ size (dom m) = 19%nat).
Proof.
  split.
  - assert (Hok : is_ok (Dataset4a._get_single_subject_data (H := Examples.demo) 1
                           Examples.cached_4a).2 = true)
      by (vm_compute; reflexivity).
    destruct (Dataset4a._get_single_subject_data (H := Examples.demo) 1
                Examples.cached_4a) as [w' [s|e]] eqn:E.
    + exists s. split; [reflexivity|].
      destruct (proj1 (output_has_one_session (H := Examples.demo) 1
                         Examples.cached_4a w') s E) as (Hd & Hm & _).
      split; [exact Hd | exact Hm].
    + discriminate Hok.
  - assert (Hok : is_ok (Ma2020._get_single_subject_data (H := Examples.demo) 7
                           Examples.on_disk_ma2020).2 = true)
      by (vm_compute; reflexivity).
    destruct (Ma2020._get_single_subject_data (H := Examples.demo) 7
                Examples.on_disk_ma2020) as [w' [s|e]] eqn:E.
    + exists s. split; [reflexivity|].
      destruct (proj2 (output_has_one_session (H := Examples.demo) 7
                         Examples.on_disk_ma2020 w') s E) as (Hd & m & Hm & _ & Hsz).
      split; [exact Hd|]. exists m. split; [exact Hm | exact Hsz].
    + discriminate Hok.
Defined.

End OutputFacts.

(** ** Downloads: what ends up on disk *)

Module DownloadMore.
Import BCIComp More DownloadFacts.

Lemma download_loop_written temp chunks cs t0 w w' r c :
  download_loop temp chunks cs t0 w = (w', r) ->
  files w !! temp = Some c ->
  exists written,
    files w' !! temp = Some (c ++ written)%list /\
    written `prefix_of` body chunks /\
    (is_ok r = true -> written = body chunks).
Proof.
  revert cs t0 w w' r c.
  induction chunks as [|[chunk|] rest IH]; intros cs t0 w w' r c Hrun Hc.
  - injection Hrun as <- <-. exists []. rewrite app_nil_r. auto.
  - destruct chunk as [|b chunk].
    + cbn in Hrun. injection Hrun as <- <-. exists []. rewrite app_nil_r. auto.
    + rewrite download_loop_data in Hrun.
      destruct (disk_fault w (length (io_log w))).
      * injection Hrun as <- <-. exists []. rewrite app_nil_r.
        split; [exact Hc|]. split; [apply prefix_nil | discriminate].
      * cbv zeta in Hrun.
        destruct (download_loop temp rest _ _ _) as [w2 r2] eqn:Erest.
        apply (IH _ _ _ _ _ (c ++ b :: chunk)%list) in Erest
          as (written & Hw & Hpre & Hall).
        2:{ unfold after_chunk. simpl. rewrite lookup_alter_eq, Hc. reflexivity. }
        exists ((b :: chunk) ++ written)%list.
        assert (w' = w2 /\ is_ok r = is_ok r2) as [-> Hok].
        { destruct r2; injection Hrun as <- <-; auto. }
        split; [rewrite Hw, <- app_assoc; reflexivity|].
        split.
        -- cbn [body]. apply prefix_app. exact Hpre.
        -- intros Hr. cbn [body]. f_equal. apply Hall. congruence.
  - injection Hrun as <- <-. exists []. rewrite app_nil_r.
    split; [exact Hc|]. split; [apply prefix_nil | discriminate].
Qed.

Lemma download_loop_others temp chunks cs t0 w w' r p :
  download_loop temp chunks cs t0 w = (w', r) ->
  p <> temp -> files w' !! p = files w !! p.
Proof. intros Hrun Hp. apply download_loop_frame in Hrun as [H _]. auto. Qed.

(** X1. When [download_file] returns, it returns the destination, and the
    destination holds exactly the chunks that the response yielded for the
    size 8192, in order, up to the first empty chunk or the end. What the
    destination or the temporary file held before does not matter (the
    temporary file is opened with mode 'wb' and the move replaces the
    destination), the temporary file is gone, and no other file has
    changed. *)
Theorem download_file_stores_the_body (destination : string) (resp : response)
    (w w' : world) (d : string) :
  download_file destination resp w = (w', Ok d) ->
  d = destination /\
  files w' !! destination = Some (body (iter_content resp 8192)) /\
  files w' !! (destination ++ ".part") = None /\
  (forall p, p <> destination -> p <> destination ++ ".part" ->
             files w' !! p = files w !! p).
Proof.
  intros Hrun. rewrite download_file_run in Hrun.
  destruct (file_size_of resp) as [n|e]; [|discriminate].
  cbv zeta in Hrun.
  destruct (open_error w _) as [e0|]; [discriminate|].
  destruct (download_loop _ _ _ _ _) as [w2 [sizes|e]] eqn:Eloop; [|discriminate].
  pose proof (part_differs destination) as Hne.
  pose proof (download_loop_written _ _ _ _ _ _ _ [] Eloop) as (written & Hw & _ & Hall).
  { unfold at_loop_start. simpl. apply lookup_insert_eq. }
  rewrite Hw in Hrun. injection Hrun as <- <-. simpl.
  split; [reflexivity|]. split.
  { rewrite lookup_insert_eq, Hall by reflexivity. reflexivity. }
  split.
  { rewrite lookup_insert_ne by congruence. apply lookup_delete_eq. }
  intros p Hp Hpart.
  rewrite lookup_insert_ne by congruence. rewrite lookup_delete_ne by congruence.
  rewrite (download_loop_others _ _ _ _ _ _ _ p Eloop) by exact Hpart.
  unfold at_loop_start. simpl. apply lookup_insert_ne. congruence.
Qed.

Lemma download_file_stores_the_body_witness :
  files stale !! "f" = Some ["o"; "l"; "d"]%byte /\
  (download_file "f" Examples.complete_response stale).2 = Ok "f" /\
  files (download_file "f" Examples.complete_response stale).1 !! "f"
    = Some ["a"; "b"; "c"; "d"; "e"; "f"]%byte /\
  files (download_file "f" Examples.complete_response stale).1 !! "f.part" = None.
Proof.
  assert (Hr : (download_file "f" Examples.complete_response stale).2 = Ok "f")
    by (vm_compute; reflexivity).
  destruct (download_file "f" Examples.complete_response stale) as [w' r] eqn:E.
  simpl in Hr. subst r.
  destruct (download_file_stores_the_body "f" Examples.complete_response stale w' "f" E)
    as (_ & Hbody & Hpart & _).
  split; [reflexivity|]. split; [reflexivity|]. split; [exact Hbody | exact Hpart].
Defined.

(** X2. When [download_file] raises after the length header was read
    and the temporary file was opened, the temporary file holds a prefix
    of what a complete transfer would have stored: the chunks written
    before the stream or the disk failed, and nothing else. When the
    temporary file cannot be opened, no file has changed: a temporary
    file left by an earlier call keeps its old content. In both cases a
    destination that existed before is left as it was. *)
Theorem download_file_keeps_a_prefix (destination : string) (resp : response)
    (w w' : world) (e : exn) :
  is_ok (file_size_of resp) = true ->
  download_file destination resp w = (w', Raise e) ->
  match open_error w (destination ++ ".part") with
  | None =>
      exists written,
        files w' !! (destination ++ ".part") = Some written /\
        written `prefix_of` body (iter_content resp 8192)
  | Some e0 => e = e0 /\ files w' = files w
  end /\
  files w' !! destination = files w !! destination.
Proof.
  intros Hhead Hrun. rewrite download_file_run in Hrun.
  destruct (file_size_of resp) as [n|e0]; [|discriminate]. clear Hhead.
  cbv zeta in Hrun.
  destruct (open_error w (destination ++ ".part")) as [e0|].
  { injection Hrun as <- <-. repeat split. }
  destruct (download_loop _ _ _ _ _) as [w2 r2] eqn:Eloop.
  pose proof (part_differs destination) as Hne.
  pose proof (download_loop_written _ _ _ _ _ _ _ [] Eloop) as (written & Hw & Hpre & _).
  { unfold at_loop_start. simpl. apply lookup_insert_eq. }
  destruct r2 as [sizes|e2].
  - rewrite Hw in Hrun. discriminate.
  - injection Hrun as <- _. split; [exists written; auto|].
    rewrite (download_loop_others _ _ _ _ _ _ _ destination Eloop) by congruence.
    unfold at_loop_start. simpl. apply lookup_insert_ne. congruence.
Qed.

Lemma download_file_keeps_a_prefix_witness :
  is_ok (file_size_of Examples.complete_response) = true /\
  (download_file "f" Examples.complete_response failing_disk).2 = Raise OSError /\
  (exists written,
     files (download_file "f" Examples.complete_response failing_disk).1 !! "f.part"
       = Some written /\
     written `prefix_of` ["a"; "b"; "c"; "d"; "e"; "f"]%byte) /\
  (download_file "f" Examples.complete_response read_only_cache).2 = Raise OSError /\
  files (download_file "f" Examples.complete_response read_only_cache).1
    = files read_only_cache.
Proof.
  assert (Hh : is_ok (file_size_of Examples.complete_response) = true) by reflexivity.
  assert (Hr : (download_file "f" Examples.complete_response failing_disk).2
               = Raise OSError) by (vm_compute; reflexivity).
  assert (Hc : (download_file "f" Examples.complete_response read_only_cache).2
               = Raise OSError) by (vm_compute; reflexivity).
  destruct (download_file "f" Examples.complete_response failing_disk)
    as [w' r] eqn:E.
  destruct (download_file "f" Examples.complete_response read_only_cache)
    as [v' q] eqn:E'.
  simpl in Hr, Hc. subst r q.
  split; [exact Hh|]. split; [reflexivity|]. split.
  - exact (proj1 (download_file_keeps_a_prefix "f" Examples.complete_response
                    failing_disk w' OSError Hh E)).
  - split; [reflexivity|].
    exact (proj2 (proj1 (download_file_keeps_a_prefix "f" Examples.complete_response
                           read_only_cache v' OSError Hh E'))).
Defined.

(** *** The two cache paths of the training archive differ *)

Lemma append_cancel (a x y : string) : a ++ x = a ++ y -> x = y.
Proof. induction a as [|c a IH]; simpl; [auto | intros [= E]; auto]. Qed.

Lemma join_relative (a b : string) :
  String.prefix "/" b = false ->
  Lib.join a b = (if String.eqb a "" || Lib.ends_with_slash a then a else a ++ "/") ++ b.
Proof.
  intros Hb. unfold Lib.join. rewrite Hb.
  destruct (String.eqb a "" || Lib.ends_with_slash a); [reflexivity|].
  clear Hb. induction a as [|c a IH]; [reflexivity|].
  change (String c (a ++ "/" ++ b) = String c ((a ++ "/") ++ b)).
  now rewrite IH.
Qed.

Section Archive.
Context `{Collaborators}.

Lemma zippath_not_matpath subject sign :
  train_zippath subject sign <> train_matpath subject sign.
Proof.
  unfold train_zippath, train_matpath.
  destruct (create_destination trainURL sign) as [[base_path key] path].
  rewrite !join_relative by reflexivity.
  intros E. apply append_cancel in E. discriminate E.
Qed.



(** What [download_train] does when the mat file is missing and a zip
    is in the cache. *)
Lemma download_train_from_zip subject sign timeout w content :
  files w !! train_matpath subject sign = None ->
  files w !! train_zippath subject sign = Some content ->
  download_train subject sign timeout w =
    (let '(base_path, _, _) := create_destination trainURL sign in
     let w1 := log (IoStat (train_zippath subject sign))
                 (log (IoStat (train_matpath subject sign)) w) in
     match extractall (train_zippath subject sign) base_path w1 with
     | (w2, Ok _) =>
         match remove (train_zippath subject sign) w2 with
         | (w3, Ok _) => (w3, Ok (train_matpath subject sign))
         | (w3, Raise e) => (w3, Raise e)
         end
     | (w2, Raise e) => (w2, Raise e)
     end).
Proof.
  intros Hmat Hzip. unfold download_train, train_matpath, train_zippath in *.
  destruct (create_destination trainURL sign) as [[base_path key] path].
  unfold bind at 1. rewrite isfile_absent by exact Hmat. cbn [negb].
  unfold bind at 1. unfold bind at 1.
  rewrite isfile_present by (simpl; rewrite Hzip; eauto). cbn [negb].
  unfold bind at 1. unfold ret at 1. unfold bind at 1.
  destruct (extractall _ base_path _) as [w2 [u|e]]; [|reflexivity].
  unfold bind. destruct (remove _ w2) as [w3 [u'|e]]; reflexivity.
Qed.




(** What a call of [download_train] does when neither the mat file nor
    the zip is in the cache: one request, whatever the outcome, and when
    it returns the zip is gone. *)
Lemma download_train_cold subject sign timeout w w' r :
  files w !! train_matpath subject sign = None ->
  files w !! train_zippath subject sign = None ->
  download_train subject sign timeout w = (w', r) ->
  transfers w' = S (transfers w) /\
  (is_ok r = true -> files w' !! train_zippath subject sign = None).
Proof.
  intros Hmat Hzip. unfold download_train, train_matpath, train_zippath in *.
  destruct (create_destination _ sign) as [[base_path key] path].
  unfold bind at 1. rewrite isfile_absent by exact Hmat. cbn [negb].
  unfold bind at 1. unfold bind at 1.
  rewrite isfile_absent by exact Hzip. cbn [negb].
  unfold bind at 1. unfold bind at 1. unfold requests_get. cbn [net log].
  destruct (net w _) as [|resp].
  { intros [= <- <-]. split; [|discriminate]. rewrite !transfers_log. simpl. lia. }
  destruct (download_file _ resp _) as [w2 [d|e]] eqn:Efile.
  2:{ apply download_file_transfers in Efile. intros [= <- <-].
      split; [|discriminate]. rewrite Efile, !transfers_log. simpl. lia. }
  pose proof (download_file_transfers _ _ _ _ _ Efile) as Htr.
  apply download_file_outcome in Efile as (-> & _ & _).
  unfold bind at 1.
  destruct (extractall _ base_path w2) as [w3 [u|e]] eqn:Eext.
  2:{ apply extractall_transfers in Eext. intros [= <- <-].
      split; [|discriminate]. rewrite Eext, Htr, !transfers_log. simpl. lia. }
  apply extractall_transfers in Eext.
  unfold bind, ret.
  destruct (remove _ w3) as [w4 [u'|e]] eqn:Erm.
  - pose proof (remove_transfers _ _ _ _ Erm) as Htr4.
    intros [= <- <-]. split.
    + rewrite Htr4, Eext, Htr, !transfers_log. simpl. lia.
    + intros _. unfold remove in Erm.
      destruct (files w3 !! _); [|discriminate].
      injection Erm as <-. simpl. apply lookup_delete_eq.
  - apply remove_transfers in Erm. intros [= <- <-].
    split; [|discriminate]. rewrite Erm, Eext, Htr, !transfers_log. simpl. lia.
Qed.

(** X5. An archive without the expected member is fetched at every
    call. From a cache with neither the mat file nor the zip,
    [download_train] can return the path of the mat file although the
    archive did not contain it: nothing checks that the path exists after
    the extraction. The zip has been removed by then, so the next call
    sends the request again, and the two calls together send two. *)
Theorem missing_member_is_fetched_again (subject sign : string) (timeout timeout' : Z)
    (w w1 w2 : world) (p : string) (r : result string) :
  files w !! train_matpath subject sign = None ->
  files w !! train_zippath subject sign = None ->
  download_train subject sign timeout w = (w1, Ok p) ->
  files w1 !! p = None ->
  download_train subject sign timeout' w1 = (w2, r) ->
  p = train_matpath subject sign /\
  files w1 !! train_zippath subject sign = None /\
  transfers w2 = S (S (transfers w)).
Proof.
  intros Hmat Hzip Hfirst Hmissing Hsecond.
  pose proof (download_train_miss _ _ _ _ _ _ Hmat Hzip Hfirst) as [-> _].
  pose proof (download_train_cold _ _ _ _ _ _ Hmat Hzip Hfirst) as [Htr Hgone].
  specialize (Hgone eq_refl).
  pose proof (download_train_cold _ _ _ _ _ _ Hmissing Hgone Hsecond) as [Htr' _].
  split; [reflexivity|]. split; [exact Hgone|]. congruence.
Qed.

Lemma download_file_others destination resp w w' r p :
  download_file destination resp w = (w', r) ->
  p <> destination -> p <> destination ++ ".part" ->
  files w' !! p = files w !! p.
Proof.
  intros Hrun Hp Hpart. rewrite download_file_run in Hrun.
  destruct (file_size_of resp) as [n|e]; [|injection Hrun as <- _; reflexivity].
  cbv zeta in Hrun.
  destruct (open_error w _) as [e0|]; [injection Hrun as <- _; reflexivity|].
  destruct (download_loop _ _ _ _ _) as [w2 r2] eqn:Eloop.
  assert (Hw2 : files w2 !! p = files w !! p).
  { rewrite (download_loop_others _ _ _ _ _ _ _ p Eloop) by exact Hpart.
    unfold at_loop_start. simpl. apply lookup_insert_ne. congruence. }
  destruct r2 as [sizes|e].
  - destruct (files w2 !! (destination ++ ".part")); injection Hrun as <- _;
      simpl; [|exact Hw2].
    rewrite lookup_insert_ne by congruence.
    rewrite lookup_delete_ne by congruence. exact Hw2.
  - injection Hrun as <- _. exact Hw2.
Qed.

(** X6. [download_test] touches two paths at most and sends one request
    at most: whatever the outcome, every file other than the destination
    and its temporary file is as before. When the destination is missing
    and the server cannot be reached, the call raises RequestException
    after its one request and no file has changed, not even a temporary
    one. *)
Theorem download_test_touches_two_paths (subject sign : string) (timeout : Z)
    (w w' : world) (r : result string) :
  download_test subject sign timeout w = (w', r) ->
  (forall p, p <> test_destination subject sign ->
             p <> test_destination subject sign ++ ".part" ->
             files w' !! p = files w !! p) /\
  (transfers w' <= S (transfers w))%nat /\
  (files w !! test_destination subject sign = None ->
   (forall req, net w req = Unreachable) ->
   r = Raise RequestException /\ files w' = files w /\
   transfers w' = S (transfers w)).
Proof.
  destruct (files w !! test_destination subject sign) as [c|] eqn:Hp.
  { rewrite download_test_hit by (rewrite Hp; eauto). intros [= <- <-].
    split; [reflexivity|]. split; [rewrite transfers_log; simpl; lia|].
    intros Habs. discriminate Habs. }
  unfold download_test, test_destination in *.
  destruct (create_destination _ sign) as [[destination key] path].
  unfold bind at 1. rewrite isfile_absent by exact Hp. cbn [negb].
  unfold bind at 1. unfold bind at 1. unfold requests_get. cbn [net log].
  destruct (net w _) as [|resp] eqn:Enet.
  - intros [= <- <-]. split; [reflexivity|].
    split; [rewrite !transfers_log; simpl; lia|].
    intros _ _. split; [reflexivity|]. split; [reflexivity|].
    rewrite !transfers_log. simpl. lia.
  - unfold bind at 1.
    destruct (download_file destination resp _) as [w2 r2] eqn:Efile.
    pose proof (download_file_transfers _ _ _ _ _ Efile) as Htr.
    rewrite !transfers_log in Htr. simpl in Htr.
    assert (Hw : w' = w2 -> 
              (forall p, p <> destination -> p <> destination ++ ".part" ->
                         files w' !! p = files w !! p) /\
              (transfers w' <= S (transfers w))%nat /\
              (None = None :> option (list byte) ->
               (forall req, net w req = Unreachable) ->
               r = Raise RequestException /\ files w' = files w /\
               transfers w' = S (transfers w))).
    { intros ->. split.
      - intros p Hd Hpart.
        apply (download_file_others _ _ _ _ _ p Efile Hd Hpart).
      - split; [lia|]. intros _ Hnet. rewrite Hnet in Enet. discriminate Enet. }
    destruct r2 as [d|e]; intros [= <- _]; apply Hw; reflexivity.
Qed.

End Archive.



Lemma missing_member_is_fetched_again_witness :
  exists w1 w2 r,
    download_train (H := other_archive) "aa" "BCIComp" 30 Examples.cold
      = (w1, Ok (train_matpath (H := other_archive) "aa" "BCIComp")) /\
    files w1 !! train_matpath (H := other_archive) "aa" "BCIComp" = None /\
    download_train (H := other_archive) "aa" "BCIComp" 30 w1 = (w2, r) /\
    transfers w2 = 2%nat.
Proof.
  assert (Hr : (download_train (H := other_archive) "aa" "BCIComp" 30 Examples.cold).2
               = Ok (train_matpath (H := other_archive) "aa" "BCIComp"))
    by (vm_compute; reflexivity).
  assert (Hm : files (download_train (H := other_archive) "aa" "BCIComp" 30
                        Examples.cold).1
                 !! train_matpath (H := other_archive) "aa" "BCIComp" = None)
    by (vm_compute; reflexivity).
  destruct (download_train (H := other_archive) "aa" "BCIComp" 30 Examples.cold)
    as [w1 r1] eqn:E1.
  simpl in Hr, Hm. subst r1.
  destruct (download_train (H := other_archive) "aa" "BCIComp" 30 w1)
    as [w2 r] eqn:E2.
  exists w1, w2, r. split; [reflexivity|]. split; [exact Hm|]. split; [exact E2|].
  refine (proj2 (proj2 (missing_member_is_fetched_again (H := other_archive)
            "aa" "BCIComp" 30 30 Examples.cold w1 w2 _ r _ _ E1 Hm E2)));
    vm_compute; reflexivity.
Defined.

Lemma download_test_touches_two_paths_witness :
  exists w',
    download_test (H := Examples.demo) "aa" "BCIComp" 30 offline
      = (w', Raise RequestException) /\
    files w' = files offline /\ transfers w' = 1%nat.
Proof.
  destruct (download_test (H := Examples.demo) "aa" "BCIComp" 30 offline)
    as [w' r] eqn:E.
  destruct (download_test_touches_two_paths (H := Examples.demo)
              "aa" "BCIComp" 30 offline w' r E) as (_ & _ & Hoff).
  destruct Hoff as (-> & Hfiles & Htr);
    [vm_compute; reflexivity | intros req; reflexivity |].
  exists w'. split; [reflexivity|]. split; [exact Hfiles | exact Htr].
Defined.

End DownloadMore.

(** ** More on the assembly (BCIComp.py, lines 132-163) *)

Module AssemblyMore.
Import PyFacts NpFacts Dataset4a More AssemblyFacts.

Lemma getitem_in_range {A} (l : list A) (i : Z) :
  - Z.of_nat (length l) <= i < Z.of_nat (length l) -> exists x, getitem l i = Ok x.
Proof.
  intros Hi. unfold getitem.
  destruct (norm_index (Z.of_nat (length l)) i) as [j|] eqn:E.
  - apply norm_index_some in E as (_ & Hj & _).
    destruct (lookup_lt_is_Some_2 l (Z.to_nat j)) as [x Hx]; [lia|].
    rewrite Hx. eauto.
  - destruct (decide (0 <= i)).
    + rewrite norm_index_id in E by lia. discriminate.
    + rewrite norm_index_wrap in E by lia. discriminate.
Qed.

Lemma getitem_ok_range {A} (l : list A) (i : Z) (x : A) :
  getitem l i = Ok x -> - Z.of_nat (length l) <= i < Z.of_nat (length l).
Proof.
  intros Hx. apply getitem_ok in Hx as (j & Hj & _).
  apply norm_index_some in Hj. lia.
Qed.

Lemma check_indices_iff (n : nat) (idx : list Z) :
  is_ok (Np.check_indices n idx) = true <->
  Forall (fun c => - Z.of_nat n <= c < Z.of_nat n) idx.
Proof.
  induction idx as [|i idx IH]; simpl.
  - split; [constructor | reflexivity].
  - destruct (norm_index (Z.of_nat n) i) as [j|] eqn:E.
    + apply norm_index_some in E as (Hi & _).
      destruct (Np.check_indices n idx) as [js|e]; simpl in *.
      * split; [intros _; constructor; [exact Hi | apply IH; reflexivity]
               | reflexivity].
      * split; [discriminate|]. intros Hall. apply Forall_cons in Hall as [_ Hall].
        apply IH in Hall. discriminate Hall.
    + split; [discriminate|]. intros Hall. apply Forall_cons in Hall as [Hi _].
      destruct (decide (0 <= i)).
      * rewrite norm_index_id in E by lia. discriminate.
      * rewrite norm_index_wrap in E by lia. discriminate.
Qed.

Lemma broadcast_to_iff (k : nat) (vals : list Z) :
  is_ok (Np.broadcast_to k vals) = true <-> length vals = k \/ length vals = 1%nat.
Proof.
  unfold Np.broadcast_to. destruct (decide (length vals = k)) as [Hk|Hk].
  - split; [auto | reflexivity].
  - destruct vals as [|v [|v' vals]]; simpl in *; split;
      try discriminate; try (intros [?|?]; congruence || lia); auto.
Qed.

Lemma setitem_cols_iff (a : Np.ndarray) (idx vals : list Z) :
  is_ok (Np.setitem_cols a idx vals) = true <->
  (length vals = length idx \/ length vals = 1%nat) /\
  Forall (fun c => - Z.of_nat (Np.ncols a) <= c < Z.of_nat (Np.ncols a)) idx.
Proof.
  rewrite <- broadcast_to_iff, <- check_indices_iff. unfold Np.setitem_cols.
  destruct (Np.broadcast_to (length idx) vals) as [vs|e]; simpl.
  - destruct (Np.check_indices (Np.ncols a) idx) as [js|e]; simpl.
    + split; [split|]; reflexivity.
    + split; [discriminate | intros [_ Hf]; exact Hf].
  - split; [discriminate | intros [Hf _]; exact Hf].
Qed.

(** The shapes that MNE's checks ask for. *)
Lemma assemble_shapes (train_data test_data : matfile) (s : sessions) :
  assemble train_data test_data = Ok s ->
  exists sf names cnt,
    mat_nfo train_data = Some (sf, names) /\
    mat_cnt train_data = Some cnt /\
    (0 < sf)%Q /\ length names = 118%nat /\ Np.ncols cnt = 118%nat.
Proof.
  intros Hs. apply assemble_ok in Hs
    as (nfo & info & cnt & cue_pos & test_idx & i & p & true_y & ev & data
        & raw_train & raw_test & Hnfo & Hinfo & Hcnt & Hmrk & Hidx & Hmin
        & Hget & Hy & Hev & Hdata & Htrain & _ & _).
  destruct nfo as [sf names]. exists sf, names, cnt.
  split; [exact Hnfo|]. split; [exact Hcnt|].
  unfold Mne.create_info in Hinfo. cbn [fst snd] in Hinfo.
  destruct (Qle_bool sf 0) eqn:Hrate; [discriminate|].
  apply positive_rate in Hrate.
  destruct (decide _) as [Hlen|]; [|discriminate]. injection Hinfo as <-.
  rewrite !length_app, length_replicate in Hlen. simpl in Hlen.
  pose proof (setitem_cols_zeros_shape _ _ _ _ Hev) as [Hrows _].
  unfold Np.concatenate0 in Hdata.
  destruct (decide _); [|discriminate]. injection Hdata as <-.
  unfold Mne.new_RawArray in Htrain. simpl in Htrain.
  destruct (decide _) as [Hch|]; [|discriminate].
  rewrite length_app in Hch. simpl in Hch.
  split; [exact Hrate|]. split; lia.
Qed.

(** X7. What a returning assembly went through. The code of lines
    132-155 has no check of its own; whenever it returns, both files had
    the five fields it reads, the sampling rate was positive, there
    were 118 channel names and 118 signal columns (the channel types
    are written for 118), the least entry of [test_idx] addressed a cue,
    every cue position addressed a sample (from the front or, negative,
    from the end), and the labels were as many as the cues or a single
    one. *)
Theorem assembly_returns_only_when (train_data test_data : matfile)
    (s : sessions) :
  assemble train_data test_data = Ok s ->
  exists sf names cnt cue_pos test_idx true_y,
    mat_nfo train_data = Some (sf, names) /\
    mat_cnt train_data = Some cnt /\
    mat_mrk train_data = Some cue_pos /\
    mat_test_idx test_data = Some test_idx /\
    mat_true_y test_data = Some true_y /\
    (0 < sf)%Q /\
    assembles names cnt cue_pos test_idx true_y.
Proof.
  intros Hs.
  destruct (assemble_shapes _ _ _ Hs)
    as (sf & names & cnt & Hnfo & Hcnt & Hrate & Hnames & Hcols).
  apply assemble_ok in Hs
    as (nfo & info & cnt' & cue_pos & test_idx & i & p & true_y & ev & data
        & raw_train & raw_test & _ & _ & Hcnt' & Hmrk & Hidx & Hmin
        & Hget & Hy & Hev & _).
  rewrite Hcnt in Hcnt'. injection Hcnt' as <-.
  exists sf, names, cnt, cue_pos, test_idx, true_y.
  do 5 (split; [assumption|]). split; [exact Hrate|].
  assert (Hset : is_ok (Np.setitem_cols (Np.zeros 1 (Np.nrows cnt)) cue_pos true_y)
                 = true) by (rewrite Hev; reflexivity).
  apply setitem_cols_iff in Hset as [Hbroad Hcues].
  split; [exact Hnames|]. split; [exact Hcols|]. split.
  { exists i. split; [exact Hmin|]. eapply getitem_ok_range. exact Hget. }
  split; [exact Hcues | exact Hbroad].
Qed.

Lemma assembly_returns_only_when_witness :
  exists sf names cnt cue_pos test_idx true_y,
    mat_nfo (Examples.recording 10 [2; 5; 8]) = Some (sf, names) /\
    mat_cnt (Examples.recording 10 [2; 5; 8]) = Some cnt /\
    mat_mrk (Examples.recording 10 [2; 5; 8]) = Some cue_pos /\
    mat_test_idx (Examples.labels [2] [1; 2; 0]) = Some test_idx /\
    mat_true_y (Examples.labels [2] [1; 2; 0]) = Some true_y /\
    (0 < sf)%Q /\
    assembles names cnt cue_pos test_idx true_y.
Proof.
  assert (Hok : is_ok (assemble (Examples.recording 10 [2; 5; 8])
                         (Examples.labels [2] [1; 2; 0])) = true)
    by (vm_compute; reflexivity).
  destruct (assemble (Examples.recording 10 [2; 5; 8])
              (Examples.labels [2] [1; 2; 0])) as [s|e] eqn:E; [|discriminate Hok].
  exact (assembly_returns_only_when _ _ s E).
Defined.

Lemma transpose_cell (cnt : Np.ndarray) (t ch : nat) :
  Np.wf cnt -> (t < Np.nrows cnt)%nat -> (ch < Np.ncols cnt)%nat ->
  Np.cell (Np.transpose cnt) ch t = Np.cell cnt t ch.
Proof.
  intros [Hlen Hrows] Ht Hch. unfold Np.cell, Np.transpose. simpl.
  rewrite list_lookup_fmap, lookup_seq_lt by exact Hch. simpl.
  rewrite list_lookup_fmap.
  destruct (lookup_lt_is_Some_2 (Np.rows cnt) t) as [r Hr]; [lia|].
  rewrite Hr. simpl.
  rewrite Forall_forall in Hrows.
  assert (Hrl : length r = Np.ncols cnt).
  { apply Hrows. eapply list_elem_of_lookup_2. exact Hr. }
  destruct (lookup_lt_is_Some_2 r ch) as [v Hv]; [lia|].
  rewrite Hv. f_equal. apply nth_lookup_Some with (d := 0) in Hv. exact Hv.
Qed.

(** X8. The assembly loses no sample and repeats none, whatever split
    position it takes. For a well-formed signal matrix of N samples,
    every successful assembly gives two recordings with the same channel
    description whose sample counts add up to N, and putting the test
    recording after the train recording gives the 118 signal rows of the
    file, transposed, followed by one event row of length N. Cell
    (channel, sample) of the transposed signal is cell (sample, channel)
    of the file. *)
Theorem assembly_keeps_every_sample (train_data test_data : matfile)
    (s : sessions) (cnt : Np.ndarray) :
  assemble train_data test_data = Ok s ->
  mat_cnt train_data = Some cnt ->
  Np.wf cnt ->
  exists raw_train raw_test event_row,
    segment (Ok s) "train" = Some raw_train /\
    segment (Ok s) "test" = Some raw_test /\
    Mne.raw_info raw_train = Mne.raw_info raw_test /\
    (Mne.n_times raw_train + Mne.n_times raw_test = Np.nrows cnt)%nat /\
    length event_row = Np.nrows cnt /\
    Np.concatenate1 (Mne.raw_data raw_train) (Mne.raw_data raw_test)
      = Ok (Np.mk_ndarray 119 (Np.nrows cnt)
              (Np.rows (Np.transpose cnt) ++ [event_row])%list) /\
    (forall t ch, (t < Np.nrows cnt)%nat -> (ch < 118)%nat ->
                  Np.cell (Np.transpose cnt) ch t = Np.cell cnt t ch).
Proof.
  intros Hs Hcnt Hwf.
  destruct (assemble_shapes _ _ _ Hs)
    as (sf0 & names0 & cnt0 & _ & Hcnt0 & _ & _ & Hcols).
  rewrite Hcnt in Hcnt0. injection Hcnt0 as <-.
  apply assemble_ok in Hs
    as (nfo & info & cnt' & cue_pos & test_idx & i & p & true_y & ev & data
        & raw_train & raw_test & Hnfo & Hinfo & Hcnt' & Hmrk & Hidx & Hmin
        & Hget & Hy & Hev & Hdata & Htrain & Htest & ->).
  rewrite Hcnt in Hcnt'. injection Hcnt' as <-.
  apply setitem_cols_zeros_ok in Hev as (vs & js & _ & _ & ->).
  unfold Np.concatenate0 in Hdata.
  destruct (decide _); [|discriminate]. injection Hdata as <-.
  unfold Mne.new_RawArray in Htrain, Htest.
  repeat case_decide; try discriminate.
  injection Htrain as <-. injection Htest as <-.
  set (N := Np.nrows cnt).
  set (event_row := Np.scatter (replicate N 0) (zip js vs)).
  assert (Hev_len : length event_row = N).
  { unfold event_row. rewrite scatter_length. apply length_replicate. }
  assert (Hbound : 0 <= slice_bound (Z.of_nat N) p <= Z.of_nat N)
    by (apply slice_bound_range; lia).
  assert (Hrows : Forall (fun r => length r = N)
                    (Np.rows (Np.transpose cnt) ++ [event_row])%list).
  { apply Forall_app. split.
    - simpl. apply Forall_fmap, Forall_forall. intros j _. simpl.
      rewrite length_map. apply Hwf.
    - constructor; [exact Hev_len | constructor]. }
  exists (Mne.mk_RawArray
            (train_part (Np.mk_ndarray (Np.ncols cnt + 1) N
               (Np.rows (Np.transpose cnt) ++ [event_row])%list) p) info),
         (Mne.mk_RawArray
            (test_part (Np.mk_ndarray (Np.ncols cnt + 1) N
               (Np.rows (Np.transpose cnt) ++ [event_row])%list) p) info),
         event_row.
  split; [reflexivity|]. split; [reflexivity|]. split; [reflexivity|].
  split.
  { unfold Mne.n_times, train_part, test_part, Np.cols_slice. simpl. lia. }
  split; [exact Hev_len|]. split.
  - unfold Np.concatenate1. rewrite decide_True by reflexivity.
    unfold train_part, test_part, Np.cols_slice. simpl.
    fold event_row.
    rewrite (map_slice_to N), (map_slice_from N) by exact Hrows.
    rewrite zip_with_take_drop. f_equal. f_equal; lia.
  - intros t ch Ht Hch. apply transpose_cell; [exact Hwf | exact Ht | lia].
Qed.

Lemma assembly_keeps_every_sample_witness :
  exists raw_train raw_test,
    segment (assemble (Examples.recording 10 [2; 5; 8])
               (Examples.labels [2] [1; 2; 0])) "train" = Some raw_train /\
    segment (assemble (Examples.recording 10 [2; 5; 8])
               (Examples.labels [2] [1; 2; 0])) "test" = Some raw_test /\
    (Mne.n_times raw_train + Mne.n_times raw_test = 10)%nat.
Proof.
  assert (Hok : is_ok (assemble (Examples.recording 10 [2; 5; 8])
                         (Examples.labels [2] [1; 2; 0])) = true)
    by (vm_compute; reflexivity).
  destruct (assemble (Examples.recording 10 [2; 5; 8])
              (Examples.labels [2] [1; 2; 0])) as [s|e] eqn:E; [|discriminate Hok].
  destruct (assembly_keeps_every_sample _ _ s (Np.zeros 10 118) E eq_refl)
    as (raw_train & raw_test & ev & H1 & H2 & _ & H4 & _).
  { split; [reflexivity|]. apply Forall_forall. intros r Hr.
    apply elem_of_replicate in Hr as [-> _]. reflexivity. }
  exists raw_train, raw_test. split; [exact H1|]. split; [exact H2 | exact H4].
Defined.

End AssemblyMore.

(** ** More on Dataset4a (BCIComp.py, lines 127-131 and 165-174) *)

Module Dataset4aMore.
Import PyFacts BCIComp Dataset4a More DownloadFacts DownloadMore OutputFacts.

Section Paths.
Context `{Collaborators}.

Lemma download_train_returns subject sign timeout w w' p :
  download_train subject sign timeout w = (w', Ok p) ->
  p = train_matpath subject sign.
Proof.
  unfold download_train, train_matpath.
  destruct (create_destination trainURL sign) as [[base_path key] path].
  intros Hrun. apply bind_ok in Hrun as (w1 & cached & _ & Hrun).
  apply bind_ok in Hrun as (w2 & u & _ & Hrun).
  injection Hrun as _ <-. reflexivity.
Qed.

Lemma download_train_transfers_le subject sign timeout w w' r :
  download_train subject sign timeout w = (w', r) ->
  (transfers w <= transfers w' <= S (transfers w))%nat.
Proof.
  intros Hrun.
  destruct (files w !! train_matpath subject sign) as [c|] eqn:Hmat.
  { rewrite download_train_hit in Hrun by (rewrite Hmat; eauto).
    injection Hrun as <- _. rewrite transfers_log. simpl. lia. }
  destruct (files w !! train_zippath subject sign) as [c|] eqn:Hzip.
  - rewrite (download_train_from_zip _ _ _ _ c Hmat Hzip) in Hrun.
    destruct (create_destination trainURL sign) as [[base_path key] path].
    cbv zeta in Hrun.
    destruct (extractall _ base_path _) as [w2 r2] eqn:Eext.
    apply extractall_transfers in Eext. rewrite !transfers_log in Eext.
    simpl in Eext.
    destruct r2 as [u|e]; [|injection Hrun as <- _; lia].
    destruct (remove _ w2) as [w3 r3] eqn:Erm.
    apply remove_transfers in Erm.
    destruct r3; injection Hrun as <- _; lia.
  - apply (download_train_cold _ _ _ _ _ _ Hmat Hzip) in Hrun as [Htr _]. lia.
Qed.

Lemma download_test_returns subject sign timeout w w' p :
  download_test subject sign timeout w = (w', Ok p) ->
  p = test_destination subject sign /\ is_Some (files w' !! p).
Proof.
  intros Hrun.
  destruct (files w !! test_destination subject sign) as [c|] eqn:Hp.
  - rewrite download_test_hit in Hrun by (rewrite Hp; eauto).
    injection Hrun as <- <-. simpl. rewrite Hp. eauto.
  - apply (download_test_miss _ _ _ _ _ _ Hp) in Hrun as (-> & Hsome & _). auto.
Qed.

Lemma download_test_transfers_le subject sign timeout w w' r :
  download_test subject sign timeout w = (w', r) ->
  (transfers w <= transfers w' <= S (transfers w))%nat.
Proof.
  destruct (files w !! test_destination subject sign) as [c|] eqn:Hp.
  { rewrite download_test_hit by (rewrite Hp; eauto). intros [= <- _].
    rewrite transfers_log. simpl. lia. }
  unfold download_test, test_destination in *.
  destruct (create_destination _ sign) as [[destination key] path].
  unfold bind at 1. rewrite isfile_absent by exact Hp. cbn [negb].
  unfold bind at 1. unfold bind at 1. unfold requests_get. cbn [net log].
  destruct (net w _) as [|resp].
  - intros [= <- _]. rewrite !transfers_log. simpl. lia.
  - unfold bind at 1.
    destruct (download_file destination resp _) as [w2 r2] eqn:Efile.
    apply download_file_transfers in Efile.
    rewrite !transfers_log in Efile. simpl in Efile.
    destruct r2; intros [= <- _]; lia.
Qed.

Lemma subject_name_of (subject : Z) :
  1 <= subject <= 5 ->
  exists name, subject_names !! Z.to_nat (subject - 1) = Some name /\
               getitem subject_names (subject - 1) = Ok name.
Proof.
  intros Hs.
  assert (Hcases : subject = 1 \/ subject = 2 \/ subject = 3 \/ subject = 4
                   \/ subject = 5) by lia.
  destruct Hcases as [->|[->|[->|[->| ->]]]]; eexists; split; reflexivity.
Qed.

Lemma data_path_run (subject : Z) (name : string) (w : world) :
  1 <= subject <= 5 ->
  getitem subject_names (subject - 1) = Ok name ->
  data_path subject w =
    match download_train name "BCIComp" 30 w with
    | (w1, Ok train_path) =>
        match download_test name "BCIComp" 30 w1 with
        | (w2, Ok test_path) => (w2, Ok [train_path; test_path])
        | (w2, Raise e) => (w2, Raise e)
        end
    | (w1, Raise e) => (w1, Raise e)
    end.
Proof.
  intros Hs Hname. unfold data_path.
  rewrite bool_decide_eq_true_2
    by (unfold subject_list; rewrite elem_of_range; lia).
  cbn [negb]. rewrite Hname. unfold bind at 1. unfold lift at 1.
  unfold bind at 1.
  destruct (download_train name "BCIComp" 30 w) as [w1 [train_path|e]];
    [|reflexivity].
  unfold bind, ret.
  destruct (download_test name "BCIComp" 30 w1) as [w2 [test_path|e]]; reflexivity.
Qed.

(** X9. [Dataset4a.data_path] for a subject from 1 to 5. The subject
    number selects the name at index subject - 1; a returned result is
    the cache path of that subject's mat file followed by the path of
    its label file, and the label file exists by then. The training file
    is resolved first, and a call sends two requests at most. With both
    files in the cache the call returns their paths without any request
    and without changing a file. *)
Theorem data_path_of_a_valid_subject (subject : Z) (w w' : world)
    (r : result (list string)) :
  1 <= subject <= 5 ->
  data_path subject w = (w', r) ->
  exists name,
    subject_names !! Z.to_nat (subject - 1) = Some name /\
    (forall paths, r = Ok paths ->
       paths = [train_matpath name "BCIComp"; test_destination name "BCIComp"] /\
       is_Some (files w' !! test_destination name "BCIComp")) /\
    (transfers w <= transfers w' <= transfers w + 2)%nat /\
    (is_Some (files w !! train_matpath name "BCIComp") ->
     is_Some (files w !! test_destination name "BCIComp") ->
     r = Ok [train_matpath name "BCIComp"; test_destination name "BCIComp"] /\
     files w' = files w /\ transfers w' = transfers w).
Proof.
  intros Hs Hrun. destruct (subject_name_of subject Hs) as (name & Hname & Hget).
  exists name. split; [exact Hname|].
  rewrite (data_path_run subject name w Hs Hget) in Hrun.
  destruct (download_train name "BCIComp" 30 w) as [w1 r1] eqn:Etrain.
  pose proof (download_train_transfers_le _ _ _ _ _ _ Etrain) as Htr1.
  assert (Hwarm : is_Some (files w !! train_matpath name "BCIComp") ->
                  w1 = log (IoStat (train_matpath name "BCIComp")) w /\
                  r1 = Ok (train_matpath name "BCIComp")).
  { intros Hmat. rewrite download_train_hit in Etrain by exact Hmat.
    injection Etrain as <- <-. auto. }
  destruct r1 as [train_path|e].
  2:{ injection Hrun as <- <-. split; [discriminate|]. split; [lia|].
      intros Hmat _. apply Hwarm in Hmat as [_ Habs]. discriminate Habs. }
  apply download_train_returns in Etrain as ->.
  destruct (download_test name "BCIComp" 30 w1) as [w2 r2] eqn:Etest.
  pose proof (download_test_transfers_le _ _ _ _ _ _ Etest) as Htr2.
  assert (Hwarm2 : is_Some (files w !! train_matpath name "BCIComp") ->
                   is_Some (files w !! test_destination name "BCIComp") ->
                   w2 = log (IoStat (test_destination name "BCIComp"))
                          (log (IoStat (train_matpath name "BCIComp")) w) /\
                   r2 = Ok (test_destination name "BCIComp")).
  { intros Hmat Hdest. apply Hwarm in Hmat as [-> _].
    rewrite download_test_hit in Etest by exact Hdest.
    injection Etest as <- <-. auto. }
  destruct r2 as [test_path|e].
  - apply download_test_returns in Etest as [-> Hsome].
    injection Hrun as <- <-. split.
    { intros paths [= <-]. split; [reflexivity | exact Hsome]. }
    split; [lia|]. intros Hmat Hdest.
    destruct (Hwarm2 Hmat Hdest) as [-> _].
    split; [reflexivity|]. split; [reflexivity|].
    rewrite !transfers_log. simpl. lia.
  - injection Hrun as <- <-. split; [discriminate|]. split; [lia|].
    intros Hmat Hdest. destruct (Hwarm2 Hmat Hdest) as [_ Habs]. discriminate Habs.
Qed.

(** X10. With both files of a subject in the cache,
    [Dataset4a._get_single_subject_data] is the assembly of the two
    decoded files: its result, an error included, is that of [assemble]
    on them. It probes and reads the two files, sends no request and
    changes no file. *)
Theorem cached_subject_is_assembled (subject : Z) (name : string) (w : world)
    (train_bytes label_bytes : list byte) (train_data test_data : matfile) :
  1 <= subject <= 5 ->
  subject_names !! Z.to_nat (subject - 1) = Some name ->
  files w !! train_matpath name "BCIComp" = Some train_bytes ->
  files w !! test_destination name "BCIComp" = Some label_bytes ->
  decode_mat train_bytes = Some train_data ->
  decode_mat label_bytes = Some test_data ->
  exists w',
    _get_single_subject_data subject w = (w', assemble train_data test_data) /\
    files w' = files w /\
    io_log w' = (io_log w ++ [IoStat (train_matpath name "BCIComp");
                              IoStat (test_destination name "BCIComp");
                              IoRead (train_matpath name "BCIComp");
                              IoRead (test_destination name "BCIComp")])%list.
Proof.
  intros Hs Hname Hmat Hdest Htrain Htest.
  destruct (subject_name_of subject Hs) as (name' & Hname' & Hget).
  rewrite Hname in Hname'. injection Hname' as <-.
  unfold _get_single_subject_data. unfold bind at 1.
  rewrite (data_path_run subject name w Hs Hget).
  rewrite download_train_hit by (rewrite Hmat; eauto).
  rewrite download_test_hit by (simpl; rewrite Hdest; eauto).
  unfold bind at 1. unfold lift at 1. cbn [getitem].
  change (getitem [train_matpath name "BCIComp"; test_destination name "BCIComp"] 0)
    with (Ok (A := string) (train_matpath name "BCIComp")).
  unfold bind at 1. unfold lift at 1.
  change (getitem [train_matpath name "BCIComp"; test_destination name "BCIComp"] 1)
    with (Ok (A := string) (test_destination name "BCIComp")).
  unfold bind at 1. unfold loadmat at 1. cbn [files log].
  rewrite Hmat, Htrain.
  unfold bind at 1. unfold loadmat at 1. cbn [files log].
  rewrite Hdest, Htest. unfold lift.
  eexists. split; [reflexivity|]. split; [reflexivity|].
  simpl. rewrite <- !app_assoc. reflexivity.
Qed.

End Paths.

Lemma data_path_of_a_valid_subject_witness :
  exists w',
    data_path (H := Examples.demo) 1 Examples.cached_4a
      = (w', Ok [train_matpath (H := Examples.demo) "aa" "BCIComp";
                 test_destination (H := Examples.demo) "aa" "BCIComp"]) /\
    files w' = files Examples.cached_4a /\
    transfers w' = 0%nat.
Proof.
  destruct (data_path (H := Examples.demo) 1 Examples.cached_4a) as [w' r] eqn:E.
  destruct (data_path_of_a_valid_subject (H := Examples.demo) 1
              Examples.cached_4a w' r ltac:(lia) E)
    as (name & Hname & _ & _ & Hwarm).
  injection Hname as <-.
  destruct Hwarm as (-> & Hfiles & Htr);
    [vm_compute; eauto | vm_compute; eauto |].
  exists w'. split; [reflexivity|]. split; [exact Hfiles | exact Htr].
Defined.

Lemma cached_subject_is_assembled_witness :
  exists w',
    _get_single_subject_data (H := Examples.demo) 1 Examples.cached_4a
      = (w', assemble (Examples.recording 10 [2; 5; 8])
               (Examples.labels [2] [1; 2; 0])) /\
    files w' = files Examples.cached_4a.
Proof.
  destruct (cached_subject_is_assembled (H := Examples.demo) 1 "aa"
              Examples.cached_4a Examples.train_bytes Examples.label_bytes
              (Examples.recording 10 [2; 5; 8]) (Examples.labels [2] [1; 2; 0]))
    as (w' & Hrun & Hfiles & _);
    [lia | reflexivity | vm_compute; reflexivity | vm_compute; reflexivity
    | reflexivity | reflexivity |].
  exists w'. split; [exact Hrun | exact Hfiles].
Defined.

End Dataset4aMore.

(** ** More on Ma2020 (Ma2020.py, lines 57-107) *)

Module Ma2020More.
Import PyFacts Mne Ma2020 More DownloadFacts DownloadMore OutputFacts Ma2020Facts.

(** *** The channels and the labels of one run *)

(** X11. The channels of one run. The list of line 67 names only
    channels that the recording has, so line 68 never fails for a
    missing channel: lines 65-80 raise ValueError when the recording
    has no channel besides HEO, VEO, EMG1 and EMG2, and return for every
    other annotated recording. When they return, the channels are the
    channels of the file other than these four, in their order and with
    their samples, at least one is left, and the sampling rate is that
    of the file. *)
Theorem relabel_drops_the_four_channels (raw : Raw) :
  (forall raw', relabel raw = Ok raw' ->
     channels raw' = filter (fun c => c.1 ∉ remove_chs) (channels raw) /\
     channels raw' <> [] /\
     info_sfreq raw' = info_sfreq raw /\
     (forall name, name ∈ raw_ch_names raw' <->
                   name ∈ raw_ch_names raw /\ name ∉ remove_chs)) /\
  (filter (fun c => c.1 ∉ remove_chs) (channels raw) = [] ->
     relabel raw = Raise ValueError) /\
  (filter (fun c => c.1 ∉ remove_chs) (channels raw) <> [] ->
     annotations raw <> [] -> is_ok (relabel raw) = true).
Proof.
  split; [|split].
  - intros raw' Hrun.
    destruct (relabel_shape raw raw' Hrun) as (c & kept & Ekept & Hch & Hsf).
    split; [rewrite Hch, Ekept; reflexivity|].
    split; [rewrite Hch; discriminate|].
    split; [exact Hsf|].
    intros name. unfold raw_ch_names. rewrite Hch, <- Ekept.
    rewrite !list_elem_of_fmap. split.
    + intros (c' & -> & Hc). apply list_elem_of_filter in Hc as [Hrm Hc].
      split; [eauto | exact Hrm].
    + intros [(c' & -> & Hc) Hrm]. exists c'. split; [reflexivity|].
      apply list_elem_of_filter. auto.
  - intros Hnone. rewrite relabel_run, Hnone. reflexivity.
  - intros Hsome Hne. rewrite relabel_run.
    destruct (filter _ (channels raw)); [contradiction|].
    destruct (annotations raw); [contradiction | reflexivity].
Qed.

Lemma relabel_drops_the_four_channels_witness :
  relabel only_emg = Raise ValueError /\
  (channels <$> match relabel Examples.small_raw with
                | Ok raw' => Some raw'
                | Raise _ => None
                end) = Some [("C3", [1; 2; 3])].
Proof.
  split.
  - apply (proj1 (proj2 (relabel_drops_the_four_channels only_emg))).
    reflexivity.
  - assert (Hok : is_ok (relabel Examples.small_raw) = true) by reflexivity.
    destruct (relabel Examples.small_raw) as [raw'|e] eqn:E; [|discriminate Hok].
    cbn [fmap option_fmap option_map]. f_equal.
    exact (proj1 (proj1 (relabel_drops_the_four_channels Examples.small_raw)
                    raw' E)).
Defined.

Lemma truncate_twice (n : nat) (s : string) :
  truncate n (truncate n s) = truncate n s.
Proof.
  revert s. induction n as [|n IH]; intros [|c s]; simpl; try reflexivity.
  rewrite IH. reflexivity.
Qed.

Lemma relabelled_twice (d : string) : relabelled (relabelled d) = relabelled d.
Proof.
  destruct (String.eqb d "1") eqn:E1.
  { apply String.eqb_eq in E1 as ->. reflexivity. }
  destruct (String.eqb d "2") eqn:E2.
  { apply String.eqb_eq in E2 as ->. reflexivity. }
  assert (Hd : relabelled d = truncate 11 d)
    by (unfold relabelled; rewrite E1, E2; reflexivity).
  rewrite Hd. unfold relabelled.
  rewrite (truncate_eqb 11 d "1"), E1 by (simpl; lia).
  rewrite (truncate_eqb 11 d "2"), E2 by (simpl; lia).
  apply truncate_twice.
Qed.

Lemma relabel_annotation_twice (a : annotation) :
  relabel_annotation (relabel_annotation a) = relabel_annotation a.
Proof. unfold relabel_annotation. simpl. rewrite relabelled_twice. reflexivity. Qed.

(** X12. What lines 65-80 return is a fixed point of lines 65-80. The
    two labels written by lines 72-73 fit the eleven characters of the
    cast to '<U11' ("right_elbow" has exactly eleven), the label "rest"
    is not in the table, a rest train that was cropped to the recording
    is not cropped again, and the four channels are gone: on the
    recording they returned, the lines return the same recording.
    Stated for a positive sampling rate. *)
Theorem relabel_is_idempotent (raw raw' : Raw) :
  (0 < info_sfreq raw)%Q ->
  relabel raw = Ok raw' ->
  relabel raw' = Ok raw'.
Proof.
  intros Hpos Hrun.
  destruct (relabel_shape raw raw' Hrun) as (c & kept & Ekept & Hch & Hsf).
  pose proof (annotations_of_relabel raw raw' Hpos Hrun) as Hanns.
  assert (Hkept : filter (fun c => c.1 ∉ remove_chs) (c :: kept) = c :: kept).
  { rewrite <- Ekept. apply list_filter_filter_r. auto. }
  assert (Hfix : map relabel_annotation (annotations raw') = annotations raw'
                 /\ annotations raw' <> []).
  { destruct (annotations raw) as [|a anns].
    - destruct Hanns as (m & Hm & ->). split.
      + rewrite map_map. apply map_ext. intros k. reflexivity.
      + destruct m as [|m]; [lia | discriminate].
    - rewrite Hanns. split; [|discriminate].
      rewrite map_map. apply map_ext. intros b. apply relabel_annotation_twice. }
  destruct Hfix as [Hfix Hsome].
  rewrite relabel_run, Hch, Hkept.
  destruct raw' as [sf chs anns']. cbn [channels info_sfreq annotations] in *.
  subst chs. destruct anns' as [|a' anns']; [contradiction|].
  rewrite Hfix. reflexivity.
Qed.

Lemma relabel_is_idempotent_witness :
  exists raw',
    relabel short_rest = Ok raw' /\ relabel raw' = Ok raw' /\
    length (annotations raw') = 1%nat.
Proof.
  assert (Hn : match relabel short_rest with
               | Ok r => length (annotations r)
               | Raise _ => 0%nat
               end = 1%nat) by (vm_compute; reflexivity).
  destruct (relabel short_rest) as [raw'|e] eqn:E; [|discriminate Hn].
  exists raw'. split; [reflexivity|]. split; [|exact Hn].
  apply (relabel_is_idempotent short_rest raw'); [reflexivity | exact E].
Defined.

(** *** The nineteen paths *)

Lemma session_path_eq (subject session : Z) :
  session_path subject session
  = "sourcedata\sub-" ++ zfill 3 subject ++ "\ses-" ++ zfill 2 session
      ++ "\eeg\sub-" ++ zfill 3 subject ++ "_ses-" ++ zfill 2 session
      ++ (if (1 <=? session) && (session <? 16)
          then "_task-motorimagery_eeg.cnt" else "_task-rest_eeg.cnt").
Proof. unfold session_path. destruct ((1 <=? session) && (session <? 16)); reflexivity. Qed.

Lemma zfill_two_digits (session : Z) :
  1 <= session <= 19 ->
  exists a b : ascii,
    zfill 2 session = String a (String b "") /\
    session = 10 * (Z.of_nat (nat_of_ascii a) - 48) + (Z.of_nat (nat_of_ascii b) - 48).
Proof.
  intros Hs.
  assert (Hcases : Z.to_nat session ∈ seq 1 19) by (apply elem_of_seq; lia).
  replace session with (Z.of_nat (Z.to_nat session)) by lia.
  revert Hcases. generalize (Z.to_nat session). intros n Hn.
  repeat (apply elem_of_cons in Hn as [->|Hn];
          [eexists _, _; split; reflexivity|]).
  inversion Hn.
Qed.

Lemma session_path_inj (subject i j : Z) :
  1 <= i <= 19 -> 1 <= j <= 19 ->
  session_path subject i = session_path subject j -> i = j.
Proof.
  intros Hi Hj E. rewrite !session_path_eq in E.
  do 3 apply append_cancel in E.
  destruct (zfill_two_digits i Hi) as (a & b & Ei & ->).
  destruct (zfill_two_digits j Hj) as (a' & b' & Ej & ->).
  rewrite Ei, Ej in E. injection E as -> -> _. reflexivity.
Qed.

Lemma session_path_relative (subject session : Z) :
  String.prefix "/" (session_path subject session) = false.
Proof. rewrite session_path_eq. reflexivity. Qed.

Section Runs.
Context `{Collaborators}.

Lemma ma2020_file_inj (subject : Z) (i j : nat) :
  (1 <= i <= 19)%nat -> (1 <= j <= 19)%nat ->
  ma2020_file subject i = ma2020_file subject j -> i = j.
Proof.
  intros Hi Hj E. unfold ma2020_file in E.
  rewrite !join_relative in E by apply session_path_relative.
  apply append_cancel in E. apply session_path_inj in E; lia.
Qed.

Lemma ma2020_data_path_run (subject : Z) (w : world) :
  1 <= subject <= 25 ->
  data_path subject w =
    let w1 := log (IoStat ma2020_basepath)
                (log (IoConfig "MNE-ma2020-data")
                   (log (IoConfig "MNE-ma2020-data") w)) in
    if bool_decide (ma2020_basepath ∈ dirs w)
    then (w1, Ok (map (ma2020_file subject) (seq 1 19)))
    else (log (IoConsole 0) w1, Raise FileNotFoundError).
Proof.
  intros Hs. unfold data_path.
  rewrite bool_decide_eq_true_2
    by (unfold subject_list; rewrite elem_of_range; lia).
  cbn [negb]. unfold bind at 1. unfold bind at 1. unfold isdir at 1.
  cbn [dirs log]. fold ma2020_basepath. cbv zeta.
  destruct (bool_decide (ma2020_basepath ∈ dirs w)); cbn [negb].
  - unfold ret. rewrite map_map. reflexivity.
  - reflexivity.
Qed.

(** X13. [Ma2020.data_path] for a subject from 1 to 25 only looks for
    the data directory. When the directory exists it returns nineteen
    different paths under it, the k-th for session k, the first fifteen
    of task "motorimagery" and the last four of task "rest", without
    checking that any of these files exists. When the directory does
    not exist it raises FileNotFoundError. In both cases no file of the
    modelled file system is read or changed and no request is sent; what
    MNE does to its own configuration in [_get_path] and
    [_do_path_update] is recorded as two IoConfig operations and not
    modelled further. *)
Theorem ma2020_paths_of_a_valid_subject (subject : Z) (w w' : world)
    (r : result (list string)) :
  1 <= subject <= 25 ->
  data_path subject w = (w', r) ->
  files w' = files w /\ transfers w' = transfers w /\
  Forall (fun e => match e with IoRead _ => False | _ => True end)
    (drop (length (io_log w)) (io_log w')) /\
  (ma2020_basepath ∈ dirs w ->
     r = Ok (map (ma2020_file subject) (seq 1 19)) /\
     NoDup (map (ma2020_file subject) (seq 1 19)) /\
     forall k : nat, (1 <= k <= 19)%nat ->
       ma2020_file subject k
       = Lib.join ma2020_basepath
           ("sourcedata\sub-" ++ zfill 3 subject ++ "\ses-" ++ zfill 2 (Z.of_nat k)
              ++ "\eeg\sub-" ++ zfill 3 subject ++ "_ses-" ++ zfill 2 (Z.of_nat k)
              ++ (if (k <? 16)%nat then "_task-motorimagery_eeg.cnt"
                  else "_task-rest_eeg.cnt"))) /\
  (ma2020_basepath ∉ dirs w -> r = Raise FileNotFoundError).
Proof.
  intros Hs Hrun. rewrite (ma2020_data_path_run subject w Hs) in Hrun.
  cbv zeta in Hrun.
  assert (Hw : files w' = files w /\ transfers w' = transfers w /\
               Forall (fun e => match e with IoRead _ => False | _ => True end)
                 (drop (length (io_log w)) (io_log w'))).
  { destruct (bool_decide _); injection Hrun as <- _;
      (split; [reflexivity|]); (split; [rewrite !transfers_log; simpl; lia|]);
      simpl; rewrite <- ?app_assoc, drop_app_length; repeat constructor. }
  destruct Hw as (Hf & Ht & Hlog).
  split; [exact Hf|]. split; [exact Ht|]. split; [exact Hlog|]. split.
  - intros Hdir. rewrite bool_decide_eq_true_2 in Hrun by exact Hdir.
    injection Hrun as _ <-. split; [reflexivity|]. split.
    + apply NoDup_fmap_2_strong; [|apply NoDup_seq].
      intros i j Hi Hj. apply elem_of_seq in Hi, Hj.
      apply ma2020_file_inj; lia.
    + intros k Hk. unfold ma2020_file. rewrite session_path_eq. do 9 f_equal.
      destruct (k <? 16)%nat eqn:E.
      * apply Nat.ltb_lt in E.
        replace ((1 <=? Z.of_nat k) && (Z.of_nat k <? 16)) with true
          by (symmetry; apply andb_true_iff; lia).
        reflexivity.
      * apply Nat.ltb_ge in E.
        replace ((1 <=? Z.of_nat k) && (Z.of_nat k <? 16)) with false
          by (symmetry; apply andb_false_iff; lia).
        reflexivity.
  - intros Hdir. rewrite bool_decide_eq_false_2 in Hrun by exact Hdir.
    injection Hrun as _ <-. reflexivity.
Qed.

(** *** The loop over the runs *)

Lemma read_raw_cnt_run (path : string) (w w' : world) (r : result Raw) :
  read_raw_cnt path w = (w', r) ->
  w' = log (IoRead path) w /\
  (forall raw, r = Ok raw ->
     exists content, files w !! path = Some content /\ decode_cnt content = Some raw).
Proof.
  unfold read_raw_cnt. destruct (files w !! path) as [content|].
  - destruct (decode_cnt content) as [raw|] eqn:E; intros [= <- <-];
      (split; [reflexivity|]); [|discriminate].
    intros raw' [= <-]. eauto.
  - intros [= <- <-]. split; [reflexivity | discriminate].
Qed.

Lemma load_runs_reads_only file_paths runs session w w' r :
  load_runs file_paths runs session w = (w', r) ->
  files w' = files w /\ dirs w' = dirs w /\ transfers w' = transfers w.
Proof.
  revert session w. induction runs as [|run runs IH]; intros session w Hrun.
  - injection Hrun as <- _. auto.
  - cbn [load_runs] in Hrun. unfold bind at 1 in Hrun. unfold lift at 1 in Hrun.
    destruct (getitem file_paths (run - 1)) as [path|e];
      [|injection Hrun as <- _; auto].
    unfold bind at 1 in Hrun.
    destruct (read_raw_cnt path w) as [w1 r1] eqn:Eread.
    apply read_raw_cnt_run in Eread as [-> _].
    destruct r1 as [raw|e].
    + unfold bind at 1 in Hrun. unfold lift at 1 in Hrun.
      destruct (relabel raw) as [raw'|e].
      * apply IH in Hrun as (Hf & Hd & Ht).
        rewrite Hf, Hd, Ht, transfers_log. simpl. split; [|split]; auto; lia.
      * injection Hrun as <- _. rewrite transfers_log. simpl.
        split; [|split]; auto; lia.
    + injection Hrun as <- _. rewrite transfers_log. simpl.
      split; [|split]; auto; lia.
Qed.

Lemma load_runs_entries file_paths runs session w w' m :
  load_runs file_paths runs session w = (w', Ok m) ->
  NoDup (map (fun run => "run_" ++ str_of_Z run) runs) ->
  (forall run, run ∈ runs ->
     exists path content raw raw',
       getitem file_paths (run - 1) = Ok path /\
       files w !! path = Some content /\
       decode_cnt content = Some raw /\
       relabel raw = Ok raw' /\
       m !! ("run_" ++ str_of_Z run) = Some raw') /\
  (forall key, key ∉ map (fun run => "run_" ++ str_of_Z run) runs ->
     m !! key = session !! key).
Proof.
  revert session w. induction runs as [|run runs IH]; intros session w Hrun Hnd.
  - injection Hrun as _ <-. split; [intros run Hin; inversion Hin | auto].
  - cbn [load_runs] in Hrun.
    apply bind_ok in Hrun as (w0 & path & Hpath & Hrun).
    apply lift_run in Hpath as [-> Hpath].
    apply bind_ok in Hrun as (w1 & raw & Hread & Hrun).
    apply read_raw_cnt_run in Hread as [-> Hraw].
    destruct (Hraw raw eq_refl) as (content & Hcontent & Hdecode).
    apply bind_ok in Hrun as (w1 & raw' & Hrelabel & Hrun).
    apply lift_run in Hrelabel as [-> Hrelabel].
    cbn [map] in Hnd. apply NoDup_cons in Hnd as [Hfresh Hnd].
    destruct (IH _ _ Hrun Hnd) as [Hentries Hrest].
    split.
    + intros run' Hin. apply elem_of_cons in Hin as [->|Hin].
      * exists path, content, raw, raw'. repeat (split; [auto; fail|]).
        rewrite (Hrest _ Hfresh). apply lookup_insert_eq.
      * destruct (Hentries run' Hin) as (p' & c' & r1 & r2 & H1 & H2 & H3 & H4 & H5).
        exists p', c', r1, r2. auto.
    + intros key Hkey. cbn [map] in Hkey. apply not_elem_of_cons in Hkey as [Hne Hkey].
      rewrite (Hrest key Hkey). apply lookup_insert_ne. congruence.
Qed.

(** X14. [Ma2020._get_single_subject_data] only reads. Whatever it
    returns or raises, no file of the modelled file system has changed
    (MNE's configuration update apart) and no request was sent.
    When it returns, the subject is one of 1 to 25, the data directory
    exists, each of the nineteen session files exists and was decoded,
    lines 65-80 returned on each of the recordings, and run k of the
    result is what they returned on the recording of the file of
    session k. *)
Theorem ma2020_runs_follow_the_files (subject : Z) (w w' : world)
    (r : result sessions) :
  _get_single_subject_data subject w = (w', r) ->
  files w' = files w /\ transfers w' = transfers w /\
  forall s, r = Ok s ->
    1 <= subject <= 25 /\
    ma2020_basepath ∈ dirs w /\
    forall k : nat, (1 <= k <= 19)%nat ->
      exists content raw raw',
        files w !! ma2020_file subject k = Some content /\
        decode_cnt content = Some raw /\
        relabel raw = Ok raw' /\
        s !! "session_1" ≫= (fun m => m !! ("run_" ++ str_of_Z (Z.of_nat k)))
          = Some raw'.
Proof.
  intros Hrun.
  destruct (decide (1 <= subject <= 25)) as [Hs|Hs].
  2:{ unfold _get_single_subject_data, bind at 1, data_path in Hrun.
      rewrite bool_decide_eq_false_2 in Hrun
        by (unfold subject_list; rewrite elem_of_range; lia).
      injection Hrun as <- <-. split; [reflexivity|]. split; [reflexivity|].
      discriminate. }
  unfold _get_single_subject_data in Hrun. unfold bind at 1 in Hrun.
  rewrite (ma2020_data_path_run subject w Hs) in Hrun. cbv zeta in Hrun.
  destruct (bool_decide (ma2020_basepath ∈ dirs w)) eqn:Hdir.
  2:{ injection Hrun as <- <-. split; [reflexivity|].
      split; [rewrite !transfers_log; simpl; lia | discriminate]. }
  apply bool_decide_eq_true_1 in Hdir.
  unfold bind at 1 in Hrun.
  destruct (load_runs _ _ ∅ _) as [w2 r2] eqn:Eload.
  pose proof (load_runs_reads_only _ _ _ _ _ _ Eload) as (Hf & _ & Ht).
  rewrite !transfers_log in Ht. simpl in Hf, Ht.
  assert (Hw : w' = w2) by (destruct r2; injection Hrun as <- _; reflexivity).
  subst w'. split; [exact Hf|]. split; [lia|].
  intros s ->. destruct r2 as [m|e]; [|discriminate].
  injection Hrun as <-. split; [exact Hs|]. split; [exact Hdir|].
  apply load_runs_entries in Eload as [Hentries _].
  2:{ apply (bool_decide_unpack _). vm_compute. exact I. }
  intros k Hk.
  destruct (Hentries (Z.of_nat k))
    as (path & content & raw & raw' & Hpath & Hc & Hd & Hrel & Hm).
  { apply elem_of_range. lia. }
  assert (Hk' : path = ma2020_file subject k).
  { apply getitem_ok in Hpath as (j & Hj & Hlook).
    rewrite length_map, length_seq in Hj.
    rewrite norm_index_id in Hj by lia. injection Hj as <-.
    rewrite list_lookup_fmap, lookup_seq_lt in Hlook by lia.
    injection Hlook as <-. f_equal. lia. }
  subst path. exists content, raw, raw'.
  split; [exact Hc|]. split; [exact Hd|]. split; [exact Hrel|].
  transitivity (Some m ≫= (fun m => m !! ("run_" ++ str_of_Z (Z.of_nat k))));
    [|exact Hm].
  f_equal.
Qed.

End Runs.

Lemma ma2020_paths_of_a_valid_subject_witness :
  exists w',
    data_path (H := Examples.demo) 7 Examples.on_disk_ma2020
      = (w', Ok (map (ma2020_file (H := Examples.demo) 7) (seq 1 19))) /\
    files w' = files Examples.on_disk_ma2020 /\
    NoDup (map (ma2020_file (H := Examples.demo) 7) (seq 1 19)).
Proof.
  destruct (data_path (H := Examples.demo) 7 Examples.on_disk_ma2020)
    as [w' r] eqn:E.
  destruct (ma2020_paths_of_a_valid_subject (H := Examples.demo) 7
              Examples.on_disk_ma2020 w' r ltac:(lia) E)
    as (Hfiles & _ & _ & Hdir & _).
  destruct Hdir as (-> & Hnd & _); [vm_compute; reflexivity|].
  exists w'. split; [reflexivity|]. split; [exact Hfiles | exact Hnd].
Defined.

Lemma ma2020_runs_follow_the_files_witness :
  exists w' s,
    _get_single_subject_data (H := Examples.demo) 7 Examples.on_disk_ma2020
      = (w', Ok s) /\
    files w' = files Examples.on_disk_ma2020 /\
    exists raw',
      relabel Examples.small_raw = Ok raw' /\
      s !! "session_1" ≫= (fun m => m !! "run_1") = Some raw'.
Proof.
  assert (Hok : is_ok (_get_single_subject_data (H := Examples.demo) 7
                         Examples.on_disk_ma2020).2 = true)
    by (vm_compute; reflexivity).
  destruct (_get_single_subject_data (H := Examples.demo) 7 Examples.on_disk_ma2020)
    as [w' [s|e]] eqn:E; [|discriminate Hok].
  destruct (ma2020_runs_follow_the_files (H := Examples.demo) 7
              Examples.on_disk_ma2020 w' (Ok s) E) as (Hfiles & _ & Hruns).
  destruct (Hruns s eq_refl) as (_ & _ & Hrun).
  destruct (Hrun 1%nat ltac:(lia)) as (content & raw & raw' & _ & Hdecode & Hrel & Hm).
  injection Hdecode as <-.
  exists w', s. split; [reflexivity|]. split; [exact Hfiles|].
  exists raw'. split; [exact Hrel | exact Hm].
Defined.

End Ma2020More.

(** ** More on the chunk size (BCIComp.py, lines 71-77) *)

Module ChunkMore.
Import BCIComp More DownloadFacts.




End ChunkMore.
